(** * wb2_expand_climatology: expanding a periodic climatology into forecasts

    A shallow embedding of [scripts/wb2_expand_climatology.py] together with
    the small part of pandas, xarray and xarray_beam that the script calls.

    Layout:
    - Python exceptions and the store of mutable objects ([exn], [M]);
    - pandas: timestamps, [date_range], [dayofyear], [hour], slicing;
    - xarray: [XVariable], [Dataset], label selection, coordinate deletion;
    - Python floats, for the division of line 105;
    - the script itself: [select_climatology], [main_setup], and [main]
      over the destination and the runner it is given ([Pipeline]);
    - the properties of the script. *)

From stdpp Require Import numbers list strings.

Local Open Scope string_scope.
Local Open Scope list_scope.
Local Open Scope Z_scope.

(** ** Python exceptions and results *)

(** The exception classes the script and its libraries can raise on the paths
    modelled here.  [KeyError] carries the name of the key or index it is
    about.  [OtherError] names any other class. *)
Inductive exn : Type :=
  | KeyError (about : string)
  | IndexError
  | InvalidIndexError
  | ValueError
  | ZeroDivisionError
  | OtherError (cls : string).

(** [KeyError] and [IndexError] are the two subclasses of Python's
    [LookupError]. *)
Definition is_LookupError (e : exn) : bool :=
  match e with
  | KeyError _ | IndexError => true
  | _ => false
  end.

Inductive result (A : Type) : Type :=
  | Ok (a : A)
  | Raise (e : exn).
Arguments Ok {A} a.
Arguments Raise {A} e.

Definition rbind {A B} (r : result A) (k : A -> result B) : result B :=
  match r with
  | Ok a => k a
  | Raise e => Raise e
  end.

Declare Scope result_scope.
Delimit Scope result_scope with result.
Notation "'let?' x ':=' r 'in' k" := (rbind r (fun x => k))
  (at level 10, x pattern, r at level 100, k at level 200) : result_scope.
Local Open Scope result_scope.

(** Map a fallible function over a list, stopping at the first exception. *)
Fixpoint rmap {A B} (f : A -> result B) (l : list A) : result (list B) :=
  match l with
  | [] => Ok []
  | a :: l' => let? b := f a in let? bs := rmap f l' in Ok (b :: bs)
  end.

(** ** Python dicts as association lists (insertion order is observable) *)

Section Dict.
Context {V : Type}.

Fixpoint dict_get (d : list (string * V)) (k : string) : option V :=
  match d with
  | [] => None
  | (k', v) :: d' => if String.eqb k' k then Some v else dict_get d' k
  end.

Definition dict_mem (d : list (string * V)) (k : string) : bool :=
  match dict_get d k with Some _ => true | None => false end.

Definition dict_keys (d : list (string * V)) : list string := map fst d.

(** [del d[k]] *)
Fixpoint dict_del (d : list (string * V)) (k : string) : list (string * V) :=
  match d with
  | [] => []
  | (k', v) :: d' =>
      if String.eqb k' k then dict_del d' k else (k', v) :: dict_del d' k
  end.

(** [d[k] = v]: an existing key keeps its position. *)
Fixpoint dict_set (d : list (string * V)) (k : string) (v : V)
  : list (string * V) :=
  match d with
  | [] => [(k, v)]
  | (k', v') :: d' =>
      if String.eqb k' k then (k, v) :: d' else (k', v') :: dict_set d' k v
  end.
End Dict.

Definition str_in (k : string) (l : list string) : bool :=
  existsb (String.eqb k) l.

(** ** pandas: timestamps and the time index *)

(** A [pd.Timestamp] is its count of nanoseconds since 1970-01-01T00:00. *)
Definition Timestamp := Z.

Definition NS_PER_HOUR : Z := 3600000000000.
Definition NS_PER_DAY : Z := 24 * NS_PER_HOUR.

(** [np.arange(b, e, stride)] for a non-zero stride: [ceil((e - b) / stride)]
    entries, none when that is not positive. *)
Definition arange (b e stride : Z) : list Z :=
  map (fun i : nat => b + Z.of_nat i * stride)
      (seq 0 (Z.to_nat (- ((b - e) `div` stride)))).

(** [pd.date_range(start, stop, freq=stride)] for a fixed stride, both ends
    inclusive: pandas computes the exclusive end
    [b + (stop - b) // stride * stride + stride // 2 + 1] and takes the
    [arange] up to it.  A zero stride makes the floor division fail. *)
Definition date_range (start stop : Timestamp) (stride : Z)
  : result (list Timestamp) :=
  if stride =? 0 then Raise ZeroDivisionError
  else
    let e := start + (stop - start) `div` stride * stride
             + stride `div` 2 + 1 in
    Ok (arange start e stride).

(** Proleptic Gregorian day of the year of a day ordinal (day 1 is
    0001-01-01), by the 400/100/4/1-year cycle decomposition. *)
Definition ordinal_dayofyear (ordinal : Z) : Z :=
  let n := ordinal - 1 in
  let n := n `mod` 146097 in
  let n100 := n `div` 36524 in
  let n := n `mod` 36524 in
  let n := n `mod` 1461 in
  let n1 := n `div` 365 in
  let n := n `mod` 365 in
  if (n1 =? 4) || (n100 =? 4) then 366 else n + 1.

(** Ordinal of 1970-01-01. *)
Definition EPOCH_ORDINAL : Z := 719163.

(** [Timestamp.dayofyear] and [Timestamp.hour] *)
Definition dayofyear (t : Timestamp) : Z :=
  ordinal_dayofyear (t `div` NS_PER_DAY + EPOCH_ORDINAL).

Definition hour (t : Timestamp) : Z :=
  (t `div` NS_PER_HOUR) `mod` 24.

(** A Python [slice(start, stop)] with integer bounds and step 1. *)
Record slice : Type := mkSlice { slice_start : Z; slice_stop : Z }.

(** [slice.indices(len)]: a negative bound counts from the end, and both
    bounds are clipped to [0, len]. *)
Definition clip_index (i len : Z) : Z :=
  if i <? 0 then Z.max (i + len) 0 else Z.min i len.

Definition slice_indices (s : slice) (len : nat) : nat * nat :=
  (Z.to_nat (clip_index (slice_start s) (Z.of_nat len)),
   Z.to_nat (clip_index (slice_stop s) (Z.of_nat len))).

(** [l[s]] *)
Definition getslice {A} (l : list A) (s : slice) : list A :=
  let '(lo, hi) := slice_indices s (List.length l) in
  take (hi - lo) (drop lo l).

(** A timestamp written as calendar fields, for readable examples:
    [ymdh y doy h] is hour [h] of day-of-year [doy] of year [y]. *)
Definition days_before_year (y : Z) : Z :=
  let y1 := y - 1 in y1 * 365 + y1 `div` 4 - y1 `div` 100 + y1 `div` 400.

Definition ymdh (y doy h : Z) : Timestamp :=
  (days_before_year y + doy - EPOCH_ORDINAL) * NS_PER_DAY + h * NS_PER_HOUR.

(** ** xarray: variables and datasets *)

(** [xarray.Variable]: an n-dimensional array with named dimensions.  The
    cells are read through their position along each dimension; the script
    only moves cells around, so their contents are kept as integers (day and
    hour labels, timestamps, opaque data cells). *)
Record XVariable : Type := mkVariable {
  dims : list string;
  shape : list nat;
  values : list nat -> Z
}.

(** Position of a dimension among the dimensions of a variable. *)
Fixpoint dim_axis (d : string) (ds : list string) : option nat :=
  match ds with
  | [] => None
  | d' :: ds' => if String.eqb d' d then Some 0%nat else S <$> dim_axis d ds'
  end.

Definition var_size (v : XVariable) (d : string) : option nat :=
  match dim_axis d (dims v) with
  | Some a => shape v !! a
  | None => None
  end.

(** The one-dimensional variable holding the list [l] along dimension [d]. *)
Definition var1d (d : string) (l : list Z) : XVariable :=
  {| dims := [d];
     shape := [List.length l];
     values := fun ix => match ix with
                         | [i] => default 0 (l !! i)
                         | _ => 0
                         end |}.

(** The entries of a variable along its first dimension, the others at 0. *)
Definition labels (v : XVariable) : list Z :=
  map (fun i : nat => values v (i :: map (fun _ => 0%nat) (tail (dims v))))
      (seq 0 (default 0%nat (shape v !! 0%nat))).

(** A dataset: coordinates and data variables, both ordered mappings. *)
Record Dataset : Type := mkDataset {
  coords : list (string * XVariable);
  data_vars : list (string * XVariable)
}.

Definition variables (ds : Dataset) : list (string * XVariable) :=
  coords ds ++ data_vars ds.

Fixpoint find_dim_size (vars : list (string * XVariable)) (d : string)
  : option nat :=
  match vars with
  | [] => None
  | (_, v) :: vars' =>
      match var_size v d with
      | Some n => Some n
      | None => find_dim_size vars' d
      end
  end.

(** [ds.sizes.get(d)] *)
Definition dim_size (ds : Dataset) (d : string) : option nat :=
  find_dim_size (variables ds) d.

(** [ds.xindexes.get(name)]: a coordinate is indexed when it is
    one-dimensional along the dimension of its own name. *)
Definition xindex (ds : Dataset) (name : string) : option (list Z) :=
  match dict_get (coords ds) name with
  | Some v =>
      match dims v with
      | [d] => if String.eqb d name then Some (labels v) else None
      | _ => None
      end
  | None => None
  end.

(** A one-dimensional [xarray.DataArray] carrying the coordinate of its
    dimension, as [select_climatology] builds it. *)
Record DataArray : Type := mkDataArray {
  da_values : list Z;
  da_dim : string;
  da_coord : list Z
}.

(** [array.dt.dayofyear] and [array.dt.hour] *)
Definition dt_dayofyear (a : DataArray) : DataArray :=
  {| da_values := map dayofyear (da_values a);
     da_dim := da_dim a; da_coord := da_coord a |}.

Definition dt_hour (a : DataArray) : DataArray :=
  {| da_values := map hour (da_values a);
     da_dim := da_dim a; da_coord := da_coord a |}.

(** *** Label lookup *)

Fixpoint is_unique (l : list Z) : bool :=
  match l with
  | [] => true
  | x :: l' => negb (existsb (Z.eqb x) l') && is_unique l'
  end.

(** Position of a label in an index. *)
Fixpoint index_of (idx : list Z) (lab : Z) : option nat :=
  match idx with
  | [] => None
  | x :: idx' => if x =? lab then Some 0%nat else S <$> index_of idx' lab
  end.

Fixpoint all_found (l : list (option nat)) : option (list nat) :=
  match l with
  | [] => Some []
  | Some p :: l' => cons p <$> all_found l'
  | None :: _ => None
  end.

(** [PandasIndex.sel] for an array of labels: pandas' [Index.get_indexer]
    refuses an index with repeated labels, and xarray raises [KeyError] when
    some label has no position. *)
Definition index_sel (name : string) (idx : list Z) (labs : list Z)
  : result (list nat) :=
  if is_unique idx then
    match all_found (map (index_of idx) labs) with
    | Some ps => Ok ps
    | None => Raise (KeyError name)
    end
  else Raise InvalidIndexError.

(** How one indexer of [sel] is resolved: through the index of its
    coordinate, or by position for a dimension without coordinate, whose
    size is then kept. *)
Inductive query : Type :=
  | ByLabel (idx : list Z)
  | ByPosition (size : nat).

(** Grouping the indexers by index: a coordinate without index, or a name
    that is neither an indexed coordinate nor a dimension, is a [KeyError]. *)
Definition group_indexer (ds : Dataset) (name : string) : result query :=
  match xindex ds name with
  | Some idx => Ok (ByLabel idx)
  | None =>
      if dict_mem (coords ds) name then Raise (KeyError name)
      else match dim_size ds name with
           | Some n => Ok (ByPosition n)
           | None => Raise (KeyError name)
           end
  end.

(** The labels of one indexer turned into positions.  The labels of a
    dimension without coordinate are positions already, a negative one
    counting from the end. *)
Definition run_query (name : string) (q : query) (labs : list Z)
  : result (list nat) :=
  match q with
  | ByLabel idx => index_sel name idx labs
  | ByPosition n =>
      Ok (map (fun p => Z.to_nat (if p <? 0 then p + Z.of_nat n else p)) labs)
  end.

(** [isel] refuses a position outside its dimension.  Positions found
    through an index are positions of the index. *)
Definition check_positions (q : query) (labs : list Z) : result unit :=
  match q with
  | ByLabel _ => Ok tt
  | ByPosition n =>
      if forallb (fun p => (- Z.of_nat n <=? p) && (p <? Z.of_nat n)) labs
      then Ok tt
      else Raise IndexError
  end.

(** *** Pointwise (vectorized) selection *)

(** Dimensions after pointwise indexing of the dimensions [keys] by arrays
    along [new_dim]: the first indexed dimension becomes [new_dim], the other
    indexed dimensions disappear. *)
Fixpoint pointwise_dims (keys : list string) (new_dim : string)
    (seen : bool) (ds : list string) : list string :=
  match ds with
  | [] => []
  | d :: ds' =>
      if str_in d keys then
        if seen then pointwise_dims keys new_dim true ds'
        else new_dim :: pointwise_dims keys new_dim true ds'
      else d :: pointwise_dims keys new_dim seen ds'
  end.

(** Component of the position [ix] along dimension [d] of [ds]. *)
Definition along (ds : list string) (ix : list nat) (d : string) : nat :=
  match dim_axis d ds with
  | Some a => default 0%nat (ix !! a)
  | None => 0%nat
  end.

(** [Variable.isel] with one array of positions per indexed dimension, all
    along [new_dim] of length [n]; [sel] has checked the positions.  A
    variable with none of the indexed dimensions is returned as it is. *)
Definition isel_points_var (pos : list (string * list nat)) (new_dim : string)
    (n : nat) (v : XVariable) : XVariable :=
  if forallb (fun d => negb (dict_mem pos d)) (dims v) then v
  else
    let new_dims := pointwise_dims (dict_keys pos) new_dim false (dims v) in
    {| dims := new_dims;
       shape := map (fun d => if String.eqb d new_dim then n
                              else default 0%nat (var_size v d)) new_dims;
       values := fun ix =>
         values v
           (map (fun d => match dict_get pos d with
                          | Some ps =>
                              default 0%nat (ps !! along new_dims ix new_dim)
                          | None => along new_dims ix d
                          end) (dims v)) |}.

Definition map_vars (f : XVariable -> XVariable) (vars : list (string * XVariable))
  : list (string * XVariable) :=
  map (fun kv => (fst kv, f (snd kv))) vars.

(** The dataset [sel] returns once every indexer has its positions [pos]:
    every variable is indexed pointwise, and the coordinate of the indexer
    [a0] is attached unless the dataset already has a variable of that
    name. *)
Definition sel_result (ds : Dataset) (pos : list (string * list nat))
    (a0 : DataArray) : Dataset :=
  let f := isel_points_var pos (da_dim a0) (List.length (da_values a0)) in
  {| coords := if dict_mem (variables ds) (da_dim a0)
               then map_vars f (coords ds)
               else map_vars f (coords ds)
                    ++ [(da_dim a0, var1d (da_dim a0) (da_coord a0))];
     data_vars := map_vars f (data_vars ds) |}.

(** [Dataset.sel] with [DataArray] indexers that share one dimension: the
    indexers are first grouped by index, then all resolved to positions in
    order, and then [isel] checks the positions and applies them.  So a
    label without position is reported before a position out of range.
    Datasets that already use the name of the new dimension are outside this
    model. *)
Definition sel (ds : Dataset) (indexers : list (string * DataArray))
  : result Dataset :=
  match indexers with
  | [] => Ok ds
  | (_, a0) :: _ =>
      let? qs := rmap (fun ka => let? q := group_indexer ds (fst ka) in
                                 Ok (fst ka, q, da_values (snd ka)))
                      indexers in
      let? pos := rmap (fun kql : string * query * list Z =>
                          let '(k, q, labs) := kql in
                          let? ps := run_query k q labs in Ok (k, ps)) qs in
      let? _ := rmap (fun kql : string * query * list Z =>
                        let '(_, q, labs) := kql in check_positions q labs)
                     qs in
      Ok (sel_result ds pos a0)
  end.

(** [del ds.coords[name]] *)
Definition del_coord (ds : Dataset) (name : string) : result Dataset :=
  if dict_mem (coords ds) name then
    Ok {| coords := dict_del (coords ds) name; data_vars := data_vars ds |}
  else Raise (KeyError name).

Definition subset_dims (ds needed : list string) : bool :=
  forallb (fun d => str_in d needed) ds.

(** [ds[names]]: the listed variables, with the coordinates whose dimensions
    are all used by them. *)
Definition getitem_list (ds : Dataset) (names : list string) : result Dataset :=
  let? vs := rmap (fun n => match dict_get (variables ds) n with
                            | Some v => Ok (n, v)
                            | None => Raise (KeyError n)
                            end) names in
  let needed := concat (map (fun nv : string * XVariable => dims (snd nv)) vs) in
  Ok {| coords := List.filter (fun kv => subset_dims (dims (snd kv)) needed)
                              (coords ds);
        data_vars := List.filter (fun kv => negb (dict_mem (coords ds) (fst kv)))
                                 vs |}.

(** ** xarray_beam *)

(** [xbeam.Key(offsets, vars)] *)
Record Key : Type := mkKey {
  offsets : list (string * Z);
  vars : list string
}.

(** ** The store of mutable objects *)

(** Datasets are mutable Python objects: a dataset lives in the store and is
    passed around by reference. *)
Abbreviation ref := nat (only parsing).
Abbreviation store := (list Dataset) (only parsing).

(** Computations that read and write the store and may raise. *)
Definition M (A : Type) : Type := store -> result A * store.

Definition ret {A} (a : A) : M A := fun st => (Ok a, st).

Definition raise {A} (e : exn) : M A := fun st => (Raise e, st).

Definition bind {A B} (m : M A) (k : A -> M B) : M B :=
  fun st => match m st with
            | (Ok a, st') => k a st'
            | (Raise e, st') => (Raise e, st')
            end.

Declare Scope store_scope.
Delimit Scope store_scope with store.
Notation "x <- m ;; k" := (bind m (fun x => k))
  (at level 100, m at next level, right associativity) : store_scope.
Notation "m ;;; k" := (bind m (fun _ => k))
  (at level 100, right associativity) : store_scope.
Local Open Scope store_scope.

Definition lift {A} (r : result A) : M A := fun st => (r, st).

(** Reading through a reference.  References are only made by [new], so the
    dangling case does not arise in a run started from a store that holds the
    references it is given. *)
Definition load (r : ref) : M Dataset :=
  fun st => match st !! r with
            | Some ds => (Ok ds, st)
            | None => (Raise (OtherError "dangling reference"), st)
            end.

(** A new object. *)
Definition new (ds : Dataset) : M ref :=
  fun st => (Ok (List.length st), st ++ [ds]).

(** In-place update of the object behind a reference. *)
Definition assign (r : ref) (ds : Dataset) : M unit :=
  fun st => (Ok tt, <[r := ds]> st).

Fixpoint mmap {A B} (f : A -> M B) (l : list A) : M (list B) :=
  match l with
  | [] => ret []
  | a :: l' => b <- f a ;; bs <- mmap f l' ;; ret (b :: bs)
  end.

(** The dataset operations on references. *)

(** [name in ds.coords] *)
Definition coords_contains (r : ref) (name : string) : M bool :=
  ds <- load r ;; ret (dict_mem (coords ds) name).

(** [ds.sel(...)] returns a new dataset with a mapping of variables of its
    own, and leaves [ds] as it is. *)
Definition sel_ref (r : ref) (indexers : list (string * DataArray)) : M ref :=
  ds <- load r ;; ds' <- lift (sel ds indexers) ;; new ds'.

(** [del ds.coords[name]] changes [ds] in place. *)
Definition del_coord_ref (r : ref) (name : string) : M unit :=
  ds <- load r ;; ds' <- lift (del_coord ds name) ;; assign r ds'.

(** [for name in ds]: the names of the data variables, in order. *)
Definition iter_data_vars (r : ref) : M (list string) :=
  ds <- load r ;; ret (dict_keys (data_vars ds)).

(** [ds[names]]: a new dataset, handed over by value to whoever consumes
    the generator. *)
Definition getitem_list_ref (r : ref) (names : list string) : M Dataset :=
  ds <- load r ;; lift (getitem_list ds names).

(** ** The script *)

(** [select_climatology]: select climatology data matching
    [time_index[time_slice]].  The generator is run to its end, as
    [beam.FlatMap] does, collecting what it yields. *)
Definition select_climatology (time_slice : slice) (climatology : ref)
    (time_index : list Timestamp) : M (list (Key * Dataset)) :=
  let chunk_times := getslice time_index time_slice in
  let times_array :=
    {| da_values := chunk_times; da_dim := "time"; da_coord := chunk_times |} in
  has_hour <- coords_contains climatology "hour" ;;
  chunk <- (if has_hour : bool then
              chunk <- sel_ref climatology
                         [("dayofyear", dt_dayofyear times_array);
                          ("hour", dt_hour times_array)] ;;
              del_coord_ref chunk "dayofyear" ;;;
              del_coord_ref chunk "hour" ;;;
              ret chunk
            else
              chunk <- sel_ref climatology
                         [("dayofyear", dt_dayofyear times_array)] ;;
              del_coord_ref chunk "hour" ;;;
              ret chunk) ;;
  names <- iter_data_vars chunk ;;
  mmap (fun variable_name =>
          let key := {| offsets := [("time", slice_start time_slice)];
                        vars := [variable_name] |} in
          fragment <- getitem_list_ref chunk [variable_name] ;;
          ret (key, fragment))
       names.

(** *** What [main] needs from xarray, xarray_beam and math *)

(** [v[i]]: position [i] along the first dimension. *)
Definition getitem0 (v : XVariable) (i : nat) : result XVariable :=
  match dims v, shape v with
  | _ :: ds, n :: sh =>
      if (i <? n)%nat then
        Ok {| dims := ds; shape := sh; values := fun ix => values v (i :: ix) |}
      else Raise IndexError
  | _, _ => Raise IndexError
  end.

(** [a - b], cell by cell. *)
Definition var_sub (a b : XVariable) : XVariable :=
  {| dims := dims a; shape := shape a;
     values := fun ix => values a ix - values b ix |}.

(** [v.item()]: the only cell of an array of size 1. *)
Definition item (v : XVariable) : result Z :=
  if (fold_right Nat.mul 1%nat (shape v) =? 1)%nat
  then Ok (values v (map (fun _ => 0%nat) (shape v)))
  else Raise ValueError.

(** [xbeam.make_template(ds)]: the same dataset with its data variables
    replaced by lazy zeros. *)
Definition make_template (ds : Dataset) : Dataset :=
  {| coords := coords ds;
     data_vars :=
       map_vars (fun v => {| dims := dims v; shape := shape v;
                             values := fun _ => 0 |}) (data_vars ds) |}.

(** [v.isel({d: 0 for d in ds})] on one variable: the dimensions [ds] are
    removed, position 0 is read along each; an empty dimension has no
    position 0. *)
Definition isel0_var (ds : list string) (v : XVariable) : result XVariable :=
  if forallb (fun d => negb (str_in d ds)) (dims v) then Ok v
  else if existsb (fun d => str_in d ds && (default 0%nat (var_size v d) =? 0)%nat)
                  (dims v)
  then Raise IndexError
  else
    let kept := List.filter (fun d => negb (str_in d ds)) (dims v) in
    Ok {| dims := kept;
          shape := map (fun d => default 0%nat (var_size v d)) kept;
          values := fun ix =>
            values v (map (fun d => if str_in d ds then 0%nat
                                    else along kept ix d) (dims v)) |}.

Definition touches (ds : list string) (v : XVariable) : bool :=
  existsb (fun d => str_in d ds) (dims v).

(** [ds.isel({d: 0 for d in dims}, drop=True)]: every listed name has to be a
    dimension of the dataset; an indexed coordinate that becomes a scalar is
    dropped. *)
Definition isel0_drop (ds : Dataset) (ds0 : list string) : result Dataset :=
  if forallb (fun d => match dim_size ds d with Some _ => true | None => false end)
             ds0
  then
    let? cs := rmap (fun kv : string * XVariable =>
                       let? v := isel0_var ds0 (snd kv) in Ok (fst kv, v))
                    (coords ds) in
    let? vs := rmap (fun kv : string * XVariable =>
                       let? v := isel0_var ds0 (snd kv) in Ok (fst kv, v))
                    (data_vars ds) in
    Ok {| coords :=
            List.filter
              (fun kv => negb (match dict_get (coords ds) (fst kv) with
                               | Some v0 => touches ds0 v0
                               | None => false
                               end
                               && match dims (snd kv) with
                                  | [] => true
                                  | _ => false
                                  end)) cs;
          data_vars := vs |}
  else Raise ValueError.

(** [ds.expand_dims(time=times)]: the new dimension must not exist, nor a
    non-scalar variable of that name; the data variables get the new leading
    dimension, the coordinates are kept, and [times] becomes a coordinate. *)
Definition expand_dims_time (ds : Dataset) (times : list Timestamp)
  : result Dataset :=
  match dim_size ds "time" with
  | Some _ => Raise ValueError
  | None =>
      match dict_get (variables ds) "time" with
      | Some (mkVariable (_ :: _) _ _) => Raise ValueError
      | _ =>
          Ok {| coords := ("time", var1d "time" times)
                          :: dict_del (coords ds) "time";
                data_vars :=
                  map_vars (fun v => {| dims := "time" :: dims v;
                                        shape := List.length times :: shape v;
                                        values := fun ix => values v (tail ix) |})
                           (dict_del (data_vars ds) "time") |}
      end
  end.

(** *** Python floats: [math.ceil(n / c)] *)

(** A finite binary64 number, [mant * 2 ^ expo]. *)
Record pyfloat : Type := mkFloat { mant : Z; expo : Z }.

(** The integer nearest to [a / b] for a positive [b], a tie going to the
    even one. *)
Definition round_half_even (a b : Z) : Z :=
  let q := a `div` b in
  let r := a `mod` b in
  if 2 * r <? b then q
  else if b <? 2 * r then q + 1
  else if Z.even q then q else q + 1.

(** [floor(log2(a / b))] for positive [a] and [b]: one of the two candidates
    that the bit lengths leave. *)
Definition quotient_exponent (a b : Z) : Z :=
  let e := Z.log2 a - Z.log2 b in
  if (if 0 <=? e then b * 2 ^ e <=? a else b <=? a * 2 ^ (- e))
  then e else e - 1.

(** [a / b] for positive ints: the binary64 number nearest to the quotient.
    A number of the binade [2 ^ e] has 53 significant bits, so it is a
    multiple of [2 ^ (e - 52)], and of [2 ^ -1074] below the normal range. *)
Definition divide_pos (a b : Z) : pyfloat :=
  let q := Z.max (quotient_exponent a b - 52) (-1074) in
  {| mant := if 0 <=? q then round_half_even a (b * 2 ^ q)
             else round_half_even (a * 2 ^ (- q)) b;
     expo := q |}.

(** [n / c] on ints is the true division: it fails on a zero divisor, and
    with [OverflowError] when the rounded quotient is no binary64 number; a
    quotient too small for one is rounded to zero. *)
Definition true_divide (n c : Z) : result pyfloat :=
  if c =? 0 then Raise ZeroDivisionError
  else if n =? 0 then Ok {| mant := 0; expo := 0 |}
  else
    let f := divide_pos (Z.abs n) (Z.abs c) in
    if (0 <=? expo f) && (2 ^ 1024 <=? mant f * 2 ^ expo f)
    then Raise (OtherError "OverflowError")
    else Ok {| mant := Z.sgn n * Z.sgn c * mant f; expo := expo f |}.

(** [math.ceil(f)] *)
Definition math_ceil (f : pyfloat) : Z :=
  if 0 <=? expo f then mant f * 2 ^ expo f
  else - ((- mant f) `div` 2 ^ (- expo f)).

(** Line 105, [math.ceil(n / c)]: the ceiling of the float quotient. *)
Definition ceil_div (n c : Z) : result Z :=
  let? f := true_divide n c in Ok (math_ceil f).

(** [range(n)] *)
Definition range (n : Z) : list Z := map Z.of_nat (seq 0 (Z.to_nat n)).

(** *** Flags and [main] *)

(** The flags [main] computes with; [TIME_START] and [TIME_STOP] hold the
    instants that the strings of the flags denote.  [input_path],
    [output_path] and [beam_runner] are handed to the storage and to the
    runner unchanged. *)
Record Flags : Type := mkFlags {
  TIME_START : Timestamp;
  TIME_STOP : Timestamp;
  TIME_CHUNK_SIZE : option Z
}.

(** Lines 83-88: the period step in hours and the periodic dimensions. *)
Definition hour_delta_time_dims (climatology : Dataset)
  : result (Z * list string) :=
  if negb (dict_mem (coords climatology) "hour") then Ok (24, ["dayofyear"])
  else
    match dict_get (coords climatology) "hour" with
    | Some hour =>
        let? h1 := getitem0 hour 1 in
        let? h0 := getitem0 hour 0 in
        let? hour_delta := item (var_sub h1 h0) in
        Ok (hour_delta, ["hour"; "dayofyear"])
    | None => Raise (OtherError "AttributeError")
    end.

(** Lines 100-103: the explicit chunk size, or the one of the input. *)
Definition resolve_time_chunk_size (flags : Flags)
    (input_chunks : list (string * Z)) : result Z :=
  match TIME_CHUNK_SIZE flags with
  | None =>
      match dict_get input_chunks "dayofyear" with
      | Some d => Ok (d * default 1 (dict_get input_chunks "hour"))
      | None => Raise (KeyError "dayofyear")
      end
  | Some c => Ok c
  end.

(** Lines 107-108: the chunks of the output store. *)
Definition make_output_chunks (input_chunks : list (string * Z))
    (time_dims : list string) (time_chunk_size : Z) : list (string * Z) :=
  let output_chunks :=
    fold_left (fun d dim => dict_set d dim (-1))
              (List.filter (fun dim => negb (str_in dim time_dims))
                           (dict_keys input_chunks)) [] in
  dict_set output_chunks "time" time_chunk_size.

(** Line 117: the chunk starts given to [beam.Create]. *)
Definition create_work_items (time_chunk_size time_chunk_count : Z) : list Z :=
  map (fun i => i * time_chunk_size) (range time_chunk_count).

(** Everything [main] has computed when it builds the pipeline. *)
Record Setup : Type := mkSetup {
  times : list Timestamp;
  time_dims : list string;
  template : Dataset;
  time_chunk_size : Z;
  time_chunk_count : Z;
  output_chunks : list (string * Z);
  work_items : list Z
}.

(** [pd.Timestamp] of an instant: a timestamp is a signed 64-bit count of
    nanoseconds, whose least value stands for "not a time". *)
Definition to_datetime (t : Z) : result Timestamp :=
  if (- 2 ^ 63 <? t) && (t <? 2 ^ 63) then Ok t
  else Raise (OtherError "OutOfBoundsDatetime").

(** Lines 83-117 of [main], from the opened store to the work items given to
    [beam.Create].  [pd.date_range] first makes timestamps of its two
    ends. *)
Definition main_setup (flags : Flags) (climatology : Dataset)
    (input_chunks : list (string * Z)) : result Setup :=
  let? step := hour_delta_time_dims climatology in
  let '(hour_delta, time_dims) := step in
  let? start := to_datetime (TIME_START flags) in
  let? stop := to_datetime (TIME_STOP flags) in
  let? times := date_range start stop (hour_delta * NS_PER_HOUR) in
  let? template :=
    (let? t := isel0_drop (make_template climatology) time_dims in
     expand_dims_time t times) in
  let? time_chunk_size := resolve_time_chunk_size flags input_chunks in
  let? time_chunk_count := ceil_div (Z.of_nat (List.length times)) time_chunk_size in
  let output_chunks := make_output_chunks input_chunks time_dims time_chunk_size in
  Ok {| times := times;
        time_dims := time_dims;
        template := template;
        time_chunk_size := time_chunk_size;
        time_chunk_count := time_chunk_count;
        output_chunks := output_chunks;
        work_items := create_work_items time_chunk_size time_chunk_count |}.

(** The slice [beam.Map] makes of a work item. *)
Definition slice_of (time_chunk_size : Z) (start : Z) : slice :=
  {| slice_start := start; slice_stop := start + time_chunk_size |}.

(** What [main] hands its work to and only calls: the transform
    [xbeam.ChunksToZarr] with its destination, and the Beam runner.  Their
    code is not part of the script, so [main] takes them as they are. *)
Record Pipeline : Type := mkPipeline {
  (** Line 114, [beam.Pipeline(runner=...)]: the runner that the flag names
      is looked up, which may fail. *)
  runner_setup : result unit;
  (** Line 120, [xbeam.ChunksToZarr(path, template=..., zarr_chunks=...)]:
      building the transform sets the destination up from the template and
      the chunks, and may refuse them.  This happens while the pipeline is
      built, before any work item is processed. *)
  zarr_setup : Dataset -> list (string * Z) -> result unit;
  (** What the transform does with one pair: it checks the pair against the
      template and the chunks, and writes it. *)
  zarr_write : Dataset -> list (string * Z) -> Key -> Dataset -> result unit;
  (** The order in which the runner takes the work items of [beam.Create]:
      Beam promises none. *)
  schedule : list Z -> list Z;
  schedule_permutes : forall items, Permutation (schedule items) items;
  (** The exception with which the runner reports the one of an element. *)
  runner_error : exn -> exn
}.

(** Lines 118-120 for one work item: its slice, the pairs selected for it,
    and each pair given to the transform. *)
Definition process (p : Pipeline) (setup : Setup) (climatology : ref)
    (start : Z) : M (list (Key * Dataset)) :=
  pairs <- select_climatology (slice_of (time_chunk_size setup) start)
                              climatology (times setup) ;;
  lift (rmap (fun kd : Key * Dataset =>
                zarr_write p (template setup) (output_chunks setup)
                           (fst kd) (snd kd)) pairs) ;;;
  ret pairs.

(** A failure inside the pipeline reaches [main] through the runner. *)
Definition report {A} (p : Pipeline) (r : result A) : result A :=
  match r with
  | Ok a => Ok a
  | Raise e => Raise (runner_error p e)
  end.

Definition reported {A} (p : Pipeline) (m : M A) : M A :=
  fun st => (report p (fst (m st)), snd (m st)).

(** [main], given what [xbeam.open_zarr] returned: the setup, the pipeline
    of line 114 with the transform of line 120, then the run of the
    pipeline, which stops at the first work item that fails.  The value of
    a run that ends normally is the setup and the pairs that were written.
    A run that fails has written the pairs of the work items before the
    failing one; the exception does not show them. *)
Definition main (p : Pipeline) (flags : Flags)
    (opened : Dataset * list (string * Z))
  : M (Setup * list (Key * Dataset)) :=
  climatology <- new (fst opened) ;;
  ds <- load climatology ;;
  setup <- lift (main_setup flags ds (snd opened)) ;;
  lift (runner_setup p) ;;;
  lift (zarr_setup p (template setup) (output_chunks setup)) ;;;
  outs <- reported p (mmap (process p setup climatology)
                           (schedule p (work_items setup))) ;;
  ret (setup, concat outs).

(** ** The value of [select_climatology]

    What [select_climatology] computes from the contents of the climatology,
    written without the store.  [select_climatology_run] below shows that a
    run returns exactly this, whatever else the store holds. *)
Definition selected (time_slice : slice) (climatology : Dataset)
    (time_index : list Timestamp) : result (list (Key * Dataset)) :=
  let chunk_times := getslice time_index time_slice in
  let times_array :=
    {| da_values := chunk_times; da_dim := "time"; da_coord := chunk_times |} in
  let? chunk :=
    (if dict_mem (coords climatology) "hour" then
       let? chunk := sel climatology [("dayofyear", dt_dayofyear times_array);
                                      ("hour", dt_hour times_array)] in
       let? chunk := del_coord chunk "dayofyear" in
       del_coord chunk "hour"
     else
       let? chunk := sel climatology [("dayofyear", dt_dayofyear times_array)] in
       del_coord chunk "hour") in
  rmap (fun variable_name =>
          let? fragment := getitem_list chunk [variable_name] in
          Ok ({| offsets := [("time", slice_start time_slice)];
                 vars := [variable_name] |}, fragment))
       (dict_keys (data_vars chunk)).

(** The value of [process]: the pairs selected for a work item, once the
    transform has taken each of them. *)
Definition processed (p : Pipeline) (setup : Setup) (climatology : Dataset)
    (start : Z) : result (list (Key * Dataset)) :=
  let? pairs := selected (slice_of (time_chunk_size setup) start)
                         climatology (times setup) in
  let? _ := rmap (fun kd : Key * Dataset =>
                    zarr_write p (template setup) (output_chunks setup)
                               (fst kd) (snd kd)) pairs in
  Ok pairs.

(** ** Well-formed inputs *)

Fixpoint unique_names (l : list string) : bool :=
  match l with
  | [] => true
  | x :: l' => negb (str_in x l') && unique_names l'
  end.

(** The names of a dataset are the keys of one mapping: no name occurs
    twice among the coordinates and data variables. *)
Definition valid_dataset (ds : Dataset) : bool :=
  unique_names (dict_keys (variables ds)).

(** The name [time] is free in the dataset: no variable and no dimension is
    called so. *)
Definition time_is_free (ds : Dataset) : bool :=
  forallb (fun kv : string * XVariable =>
             negb (String.eqb (fst kv) "time")
             && negb (str_in "time" (dims (snd kv))))
          (variables ds).

(** ** Sample inputs *)

Module Samples.

(** A data cell that records its own position. *)
Definition cell (ix : list nat) : Z :=
  fold_left (fun a i => a * 1000 + Z.of_nat i) ix 0.

Definition days (n : nat) : list Z := map Z.of_nat (seq 1 n).

(** Six-hourly climatology over [n] days and three latitudes, with the
    variables [t2m] and [z500]. *)
Definition hourly (n : nat) : Dataset :=
  {| coords := [("dayofyear", var1d "dayofyear" (days n));
                ("hour", var1d "hour" [0; 6; 12; 18]);
                ("latitude", var1d "latitude" [-90; 0; 90])];
     data_vars :=
       [("t2m", {| dims := ["hour"; "dayofyear"; "latitude"];
                   shape := [4%nat; n; 3%nat]; values := cell |});
        ("z500", {| dims := ["hour"; "dayofyear"; "latitude"];
                    shape := [4%nat; n; 3%nat]; values := cell |})] |}.

(** Daily climatology: no [hour] coordinate. *)
Definition daily (n : nat) : Dataset :=
  {| coords := [("dayofyear", var1d "dayofyear" (days n));
                ("latitude", var1d "latitude" [-90; 0; 90])];
     data_vars :=
       [("t2m", {| dims := ["dayofyear"; "latitude"];
                   shape := [n; 3%nat]; values := cell |})] |}.

(** A climatology whose [hour] coordinate has the single entry 0. *)
Definition single_hour : Dataset :=
  {| coords := [("dayofyear", var1d "dayofyear" (days 366));
                ("hour", var1d "hour" [0])];
     data_vars :=
       [("t2m", {| dims := ["hour"; "dayofyear"];
                   shape := [1%nat; 366%nat]; values := cell |})] |}.

Definition hourly_chunks : list (string * Z) :=
  [("hour", 4); ("dayofyear", 30); ("latitude", 3)].

Definition daily_chunks : list (string * Z) :=
  [("dayofyear", 30); ("latitude", 3)].

(** 2017-01-01T00 to 2017-01-01T18 every six hours. *)
Definition four_times : list Timestamp :=
  [ymdh 2017 1 0; ymdh 2017 1 6; ymdh 2017 1 12; ymdh 2017 1 18].

(** The last two days of the leap year 2020. *)
Definition leap_end : list Timestamp :=
  [ymdh 2020 365 0; ymdh 2020 366 0].

(** A destination that accepts every template and every pair, under a
    runner that takes the work items as they were created and reports an
    exception as it is. *)
Definition accepting : Pipeline :=
  {| runner_setup := Ok tt;
     zarr_setup := fun _ _ => Ok tt;
     zarr_write := fun _ _ _ _ => Ok tt;
     schedule := fun items => items;
     schedule_permutes := fun items => Permutation_refl items;
     runner_error := fun e => e |}.

(** The same destination under a runner that takes the work items last to
    first. *)
Definition backwards : Pipeline :=
  {| runner_setup := Ok tt;
     zarr_setup := fun _ _ => Ok tt;
     zarr_write := fun _ _ _ _ => Ok tt;
     schedule := fun items => rev items;
     schedule_permutes := fun items => Permutation_sym (Permutation_rev items);
     runner_error := fun e => e |}.

End Samples.

(** * Properties *)

(** ** Calendar and time index *)

Example dayofyear_2017_01_01 : dayofyear (ymdh 2017 1 0) = 1.
Proof. reflexivity. Qed.

Example dayofyear_2020_12_31 : dayofyear (ymdh 2020 366 23) = 366.
Proof. reflexivity. Qed.

Example dayofyear_2021_01_01 : dayofyear (ymdh 2021 1 0) = 1.
Proof. reflexivity. Qed.

Example hour_2017_01_01T18 : hour (ymdh 2017 1 18) = 18.
Proof. reflexivity. Qed.

Example epoch_is_zero : ymdh 1970 1 0 = 0.
Proof. reflexivity. Qed.

Lemma arange_length b e s :
  List.length (arange b e s) = Z.to_nat (- ((b - e) `div` s)).
Proof. unfold arange. now rewrite length_map, length_seq. Qed.

Lemma arange_lookup b e s (i : nat) :
  (i < Z.to_nat (- ((b - e) `div` s)))%nat ->
  arange b e s !! i = Some (b + Z.of_nat i * s).
Proof.
  intros Hi. unfold arange.
  rewrite list_lookup_fmap, lookup_seq_lt by exact Hi. reflexivity.
Qed.

(** For a positive stride the range is [start, start + stride, ...], with
    [floor((stop - start) / stride) + 1] entries when that is positive. *)
Lemma date_range_pos start stop s :
  0 < s ->
  date_range start stop s =
    Ok (map (fun i : nat => start + Z.of_nat i * s)
            (seq 0 (Z.to_nat ((stop - start) `div` s + 1)))).
Proof.
  intros Hs. unfold date_range.
  destruct (Z.eqb_spec s 0) as [->|_]; [lia|].
  unfold arange. do 3 f_equal.
  set (q := (stop - start) `div` s).
  assert (Hq : (start - (start + q * s + s `div` 2 + 1)) `div` s = - (q + 1)).
  { symmetry. apply Z.div_unique with (r := s - (s `div` 2 + 1)).
    - left. pose proof (Z.div_lt_upper_bound s 2 s) as H1.
      pose proof (Z.div_pos s 2) as H2. lia.
    - lia. }
  rewrite Hq. lia.
Qed.

(** Between two timestamps there are fewer than [2 ^ 24] steps of an hour or
    more. *)
Lemma date_range_length start stop stride ts :
  - 2 ^ 63 < start < 2 ^ 63 -> - 2 ^ 63 < stop < 2 ^ 63 ->
  NS_PER_HOUR <= Z.abs stride ->
  date_range start stop stride = Ok ts ->
  Z.of_nat (List.length ts) < 2 ^ 24.
Proof.
  intros Hstart Hstop Hstride. unfold date_range, NS_PER_HOUR in *.
  destruct (Z.eqb_spec stride 0) as [->|Hne]; [discriminate|].
  intros [= <-]. rewrite arange_length.
  set (q := (stop - start) `div` stride).
  set (h := stride `div` 2).
  replace (start - (start + q * stride + h + 1)) with (- (q * stride + h + 1))
    by lia.
  set (d := (- (q * stride + h + 1)) `div` stride).
  pose proof (Z.div_mod (stop - start) stride Hne) as H1. fold q in H1.
  pose proof (Z.div_mod stride 2 ltac:(lia)) as H2. fold h in H2.
  pose proof (Z.mod_pos_bound stride 2 ltac:(lia)) as H3.
  pose proof (Z.div_mod (- (q * stride + h + 1)) stride Hne) as H4. fold d in H4.
  change (2 ^ 63) with 9223372036854775808 in *.
  change (2 ^ 24) with 16777216.
  destruct (Z.le_gt_cases (- d) 0) as [Hd|Hd]; [lia|].
  rewrite Z2Nat.id by lia.
  destruct (Z.lt_trichotomy stride 0) as [Hs|[Hs|Hs]]; [|lia|].
  - pose proof (Z.mod_neg_bound (stop - start) stride Hs) as B1.
    pose proof (Z.mod_neg_bound (- (q * stride + h + 1)) stride Hs) as B4.
    nia.
  - pose proof (Z.mod_pos_bound (stop - start) stride Hs) as B1.
    pose proof (Z.mod_pos_bound (- (q * stride + h + 1)) stride Hs) as B4.
    nia.
Qed.

(** ** The stages of [main_setup] *)

Lemma rbind_Ok {A B} (r : result A) (k : A -> result B) (b : B) :
  rbind r k = Ok b -> exists a, r = Ok a /\ k a = Ok b.
Proof. destruct r as [a|e]; simpl; [eauto | discriminate]. Qed.

Lemma to_datetime_Ok t t' :
  to_datetime t = Ok t' -> t' = t /\ - 2 ^ 63 < t < 2 ^ 63.
Proof.
  unfold to_datetime.
  destruct (Z.ltb_spec (- 2 ^ 63) t); [|discriminate].
  destruct (Z.ltb_spec t (2 ^ 63)); [|discriminate].
  simpl. intros [= <-]. lia.
Qed.


(** A completed setup records the result of every stage. *)
Lemma main_setup_Ok flags clim chunks s :
  main_setup flags clim chunks = Ok s ->
  exists hd t0,
    hour_delta_time_dims clim = Ok (hd, time_dims s)
    /\ date_range (TIME_START flags) (TIME_STOP flags) (hd * NS_PER_HOUR)
       = Ok (times s)
    /\ isel0_drop (make_template clim) (time_dims s) = Ok t0
    /\ expand_dims_time t0 (times s) = Ok (template s)
    /\ resolve_time_chunk_size flags chunks = Ok (time_chunk_size s)
    /\ ceil_div (Z.of_nat (List.length (times s))) (time_chunk_size s)
       = Ok (time_chunk_count s)
    /\ output_chunks s
       = make_output_chunks chunks (time_dims s) (time_chunk_size s)
    /\ work_items s
       = create_work_items (time_chunk_size s) (time_chunk_count s).
Proof.
  unfold main_setup. intros H.
  apply rbind_Ok in H as [[hd tds] [H1 H]].
  apply rbind_Ok in H as [start [Hstart H]].
  apply rbind_Ok in H as [stop [Hstop H]].
  apply to_datetime_Ok in Hstart as [-> _].
  apply to_datetime_Ok in Hstop as [-> _].
  apply rbind_Ok in H as [ts [H2 H]].
  apply rbind_Ok in H as [tmpl [H3 H]].
  apply rbind_Ok in H3 as [t0 [H3 H3']].
  apply rbind_Ok in H as [c [H4 H]].
  apply rbind_Ok in H as [k [H5 H]].
  injection H as <-. simpl. exists hd, t0. repeat split; assumption.
Qed.

(** The two ends of a completed setup are timestamps, so its time index has
    fewer than [2 ^ 24] entries. *)
Lemma main_setup_bounds flags clim chunks s :
  main_setup flags clim chunks = Ok s ->
  - 2 ^ 63 < TIME_START flags < 2 ^ 63
  /\ - 2 ^ 63 < TIME_STOP flags < 2 ^ 63
  /\ Z.of_nat (List.length (times s)) < 2 ^ 24.
Proof.
  intros Hs. pose proof (main_setup_Ok _ _ _ _ Hs) as (hd & t0 & _ & H2 & _).
  unfold main_setup in Hs.
  apply rbind_Ok in Hs as [[hd' tds] [_ H]].
  apply rbind_Ok in H as [start [Hstart H]].
  apply rbind_Ok in H as [stop [Hstop _]].
  apply to_datetime_Ok in Hstart as [_ Hstart].
  apply to_datetime_Ok in Hstop as [_ Hstop].
  split; [exact Hstart|]. split; [exact Hstop|].
  apply (date_range_length _ _ _ _ Hstart Hstop) in H2; [exact H2|].
  unfold date_range in H2.
  destruct (Z.eqb_spec (hd * NS_PER_HOUR) 0) as [|Hne]; [discriminate|].
  unfold NS_PER_HOUR in *. lia.
Qed.


(** An exception of the setup is the exception of [main]: the pipeline is not
    run, no work item reaches [select_climatology]. *)
Lemma main_setup_Raise p flags clim chunks e st :
  main_setup flags clim chunks = Raise e ->
  main p flags (clim, chunks) st = (Raise e, st ++ [clim]).
Proof.
  intros H. unfold main, bind, new, load, lift. simpl.
  rewrite lookup_app_r by lia. rewrite Nat.sub_diag. simpl.
  rewrite H. reflexivity.
Qed.

(** ** C3: the time index *)

(** C3, as stated, fails: from 2017-01-01T00 to 2017-01-01T12 with the daily
    step of 24 hours the time index has the single entry 2017-01-01T00,
    where [ceil((time_stop - time_start) / period_step) + 1] is 2. *)
Lemma time_index_length_not_ceil :
  let flags := {| TIME_START := ymdh 2017 1 0; TIME_STOP := ymdh 2017 1 12;
                  TIME_CHUNK_SIZE := None |} in
  let period_step := 24 * NS_PER_HOUR in
  TIME_START flags <= TIME_STOP flags
  /\ hour_delta_time_dims (Samples.daily 3) = Ok (24, ["dayofyear"])
  /\ exists s,
       main_setup flags (Samples.daily 3) Samples.daily_chunks = Ok s
       /\ times s = [ymdh 2017 1 0]
       /\ Z.of_nat (List.length (times s))
          <> - ((- (TIME_STOP flags - TIME_START flags)) `div` period_step) + 1.
Proof.
  split; [vm_compute; discriminate|].
  split; [reflexivity|].
  eexists. split; [vm_compute; reflexivity|].
  split; [reflexivity|]. intros H. vm_compute in H. discriminate H.
Qed.

(** C3, amended: for a positive period step and [time_start <= time_stop],
    the time index has [floor((time_stop - time_start) / period_step) + 1]
    entries (which is the [ceil] of the claim when the step divides the
    span), entry [i] is [time_start + i * period_step], and the index is
    strictly increasing; it is the time index of every completed setup. *)
Theorem time_index_floor_length flags clim chunks hd tds :
  hour_delta_time_dims clim = Ok (hd, tds) ->
  0 < hd ->
  TIME_START flags <= TIME_STOP flags ->
  let start := TIME_START flags in
  let stop := TIME_STOP flags in
  let period_step := hd * NS_PER_HOUR in
  exists index,
    date_range start stop period_step = Ok index
    /\ Z.of_nat (List.length index) = (stop - start) `div` period_step + 1
    /\ (forall i : nat, (i < List.length index)%nat ->
          index !! i = Some (start + Z.of_nat i * period_step))
    /\ (forall (i j : nat) a b, (i < j)%nat ->
          index !! i = Some a -> index !! j = Some b -> a < b)
    /\ ((period_step | stop - start) ->
          Z.of_nat (List.length index)
          = - ((- (stop - start)) `div` period_step) + 1)
    /\ (forall s, main_setup flags clim chunks = Ok s -> times s = index).
Proof.
  intros Hstep Hhd Hle start stop period_step.
  assert (Hs : 0 < period_step) by (unfold period_step, NS_PER_HOUR; lia).
  assert (Hq : 0 <= (stop - start) `div` period_step)
    by (apply Z.div_pos; unfold start, stop; lia).
  eexists. split; [apply date_range_pos; exact Hs|].
  rewrite length_map, length_seq.
  assert (Hlook : forall i : nat,
             (i < Z.to_nat ((stop - start) `div` period_step + 1))%nat ->
             map (fun i : nat => start + Z.of_nat i * period_step)
                 (seq 0 (Z.to_nat ((stop - start) `div` period_step + 1))) !! i
             = Some (start + Z.of_nat i * period_step)).
  { intros i Hi. rewrite list_lookup_fmap, lookup_seq_lt by exact Hi.
    reflexivity. }
  split; [lia|]. split; [exact Hlook|]. split.
  { intros i j a b Hij Ha Hb.
    assert (Hj : (j < Z.to_nat ((stop - start) `div` period_step + 1))%nat).
    { apply lookup_lt_Some in Hb. now rewrite length_map, length_seq in Hb. }
    rewrite Hlook in Ha by lia. rewrite Hlook in Hb by lia.
    injection Ha as <-. injection Hb as <-. nia. }
  split.
  { intros [k Hk]. rewrite Hk.
    rewrite Z.div_mul by lia.
    replace (- (k * period_step)) with ((- k) * period_step) by lia.
    rewrite Z.div_mul by lia. lia. }
  intros s Hsetup.
  apply main_setup_Ok in Hsetup as (hd' & t0 & H1 & H2 & _).
  rewrite Hstep in H1. injection H1 as <- _.
  fold start stop period_step in H2.
  rewrite date_range_pos in H2 by exact Hs. now injection H2.
Qed.

(** The time index of the hour-aware example: six-hourly climatology,
    2017-01-01T00 to 2017-01-01T18. *)
Lemma time_index_floor_length_witness :
  exists index,
    date_range (ymdh 2017 1 0) (ymdh 2017 1 18) (6 * NS_PER_HOUR) = Ok index
    /\ Z.of_nat (List.length index) = 4.
Proof.
  destruct (time_index_floor_length
              {| TIME_START := ymdh 2017 1 0; TIME_STOP := ymdh 2017 1 18;
                 TIME_CHUNK_SIZE := None |}
              (Samples.hourly 3) Samples.hourly_chunks 6 ["hour"; "dayofyear"])
    as (index & H1 & H2 & _).
  - reflexivity.
  - lia.
  - vm_compute; discriminate.
  - exists index. split; [exact H1|]. rewrite H2. reflexivity.
Defined.

(** ** C4: the chunks of the dispatcher *)

Lemma round_half_even_le a b K :
  0 < b -> a <= K * b -> round_half_even a b <= K.
Proof.
  intros Hb Ha. unfold round_half_even.
  pose proof (Z.div_mod a b ltac:(lia)) as H1.
  pose proof (Z.mod_pos_bound a b Hb) as H2.
  assert (Hq : a `div` b <= K) by nia.
  destruct (Z.ltb_spec (2 * a `mod` b) b); [exact Hq|].
  assert (Hq' : a `div` b + 1 <= K) by nia.
  destruct (Z.ltb_spec b (2 * a `mod` b)); [exact Hq'|].
  destruct (Z.even (a `div` b)); [exact Hq | exact Hq'].
Qed.

Lemma round_half_even_gt a b J :
  0 < b -> b < 2 * (a - J * b) -> J < round_half_even a b.
Proof.
  intros Hb Ha. unfold round_half_even.
  pose proof (Z.div_mod a b ltac:(lia)) as H1.
  pose proof (Z.mod_pos_bound a b Hb) as H2.
  assert (Hq : J <= a `div` b) by nia.
  destruct (Z.ltb_spec (2 * a `mod` b) b) as [H3|H3].
  - nia.
  - destruct (Z.ltb_spec b (2 * a `mod` b)); [lia|].
    destruct (Z.even (a `div` b)); [nia | lia].
Qed.

Lemma round_half_even_nonneg a b : 0 <= a -> 0 < b -> 0 <= round_half_even a b.
Proof.
  intros Ha Hb. unfold round_half_even.
  pose proof (Z.div_pos a b Ha Hb).
  repeat match goal with |- context [if ?c then _ else _] => destruct c end; lia.
Qed.

(** The exponent of the quotient is at most its binary logarithm. *)
Lemma quotient_exponent_le a b :
  0 < a -> 0 < b ->
  let e := quotient_exponent a b in
  (0 <= e -> b * 2 ^ e <= a) /\ (e < 0 -> b <= a * 2 ^ (- e)).
Proof.
  intros Ha Hb. unfold quotient_exponent.
  pose proof (Z.log2_spec a Ha) as [Ha1 Ha2].
  pose proof (Z.log2_spec b Hb) as [Hb1 Hb2].
  pose proof (Z.log2_nonneg a) as Hla. pose proof (Z.log2_nonneg b) as Hlb.
  set (la := Z.log2 a) in *. set (lb := Z.log2 b) in *.
  destruct (Z.leb_spec 0 (la - lb)) as [H0|H0].
  - destruct (Z.leb_spec (b * 2 ^ (la - lb)) a) as [H1|H1]; simpl.
    + split; [intros _; exact H1 | lia].
    + split.
      * intros He.
        assert (E : 2 ^ la = 2 ^ (la - lb - 1) * 2 ^ (Z.succ lb)).
        { rewrite <- Z.pow_add_r by lia. f_equal; lia. }
        assert (0 < 2 ^ (la - lb - 1)) by (apply Z.pow_pos_nonneg; lia).
        nia.
      * intros He. replace (- (la - lb - 1)) with 1 by lia.
        assert (la = lb) as Hl by lia. rewrite Hl in *.
        replace (lb - lb) with 0 in H1 by lia.
        rewrite Z.pow_succ_r in Hb2 by lia. lia.
  - destruct (Z.leb_spec b (a * 2 ^ (- (la - lb)))) as [H1|H1]; simpl.
    + split; [lia | intros _; exact H1].
    + split; [lia|]. intros _.
      assert (E : 2 ^ (Z.succ lb) = 2 ^ la * 2 ^ (- (la - lb - 1))).
      { rewrite <- Z.pow_add_r by lia. f_equal; lia. }
      assert (0 < 2 ^ (- (la - lb - 1))) by (apply Z.pow_pos_nonneg; lia).
      nia.
Qed.

(** Below [2 ^ 53] the quotient is rounded at a unit [2 ^ q] with [q <= 0],
    which is finer than the divisor unless the divisor is huge. *)
Lemma divide_pos_small n c :
  0 < n < 2 ^ 53 -> 0 < c ->
  exists q,
    divide_pos n c = {| mant := round_half_even (n * 2 ^ (- q)) c; expo := q |}
    /\ -1074 <= q <= 0
    /\ (c < 2 ^ 1074 -> c < 2 * 2 ^ (- q)).
Proof.
  intros Hn Hc. unfold divide_pos.
  pose proof (quotient_exponent_le n c ltac:(lia) Hc) as [He1 He2].
  set (e := quotient_exponent n c) in *. simpl in He1, He2.
  assert (He : e <= 52).
  { destruct (Z.le_gt_cases e 52) as [|Hgt]; [assumption|]. exfalso.
    assert (H1 : 2 ^ 53 <= 2 ^ e) by (apply Z.pow_le_mono_r; lia).
    specialize (He1 ltac:(lia)). nia. }
  exists (Z.max (e - 52) (-1074)). split; [|split; [lia|]].
  - f_equal. destruct (Z.leb_spec 0 (Z.max (e - 52) (-1074))) as [H0|H0];
      [|reflexivity].
    replace (Z.max (e - 52) (-1074)) with 0 by lia. simpl.
    now rewrite !Z.mul_1_r.
  - intros Hbig. destruct (Z.max_spec (e - 52) (-1074)) as [[H0 ->]|[H0 ->]].
    + simpl Z.opp. change (2 ^ 1074) with (2 ^ 1074) in *. lia.
    + replace (2 * 2 ^ (- (e - 52))) with (2 ^ (53 - e))
        by (rewrite <- Z.pow_succ_r by lia; f_equal; lia).
      destruct (Z.le_gt_cases 0 e) as [Hpos|Hneg].
      * specialize (He1 Hpos).
        assert (E : 2 ^ 53 = 2 ^ (53 - e) * 2 ^ e).
        { rewrite <- Z.pow_add_r by lia. f_equal; lia. }
        assert (0 < 2 ^ e) by (apply Z.pow_pos_nonneg; lia).
        nia.
      * specialize (He2 Hneg).
        assert (E : 2 ^ (53 - e) = 2 ^ 53 * 2 ^ (- e)).
        { rewrite <- Z.pow_add_r by lia. f_equal; lia. }
        assert (0 < 2 ^ (- e)) by (apply Z.pow_pos_nonneg; lia).
        nia.
Qed.

(** Line 105 on a length below [2 ^ 53] and a positive chunk size: the count
    is never more than the ceiling of the exact quotient, and it is that
    ceiling when the chunk size is below [2 ^ 1074]. *)
Lemma ceil_div_pos n c :
  0 <= n < 2 ^ 53 -> 0 < c ->
  exists k,
    ceil_div n c = Ok k
    /\ 0 <= k
    /\ (0 < k -> (k - 1) * c < n)
    /\ (c < 2 ^ 1074 -> n <= k * c).
Proof.
  intros Hn Hc. unfold ceil_div, true_divide.
  destruct (Z.eqb_spec c 0) as [->|_]; [lia|].
  destruct (Z.eqb_spec n 0) as [->|Hn0].
  { exists 0. simpl. repeat split; lia. }
  rewrite (Z.abs_eq n), (Z.abs_eq c) by lia.
  destruct (divide_pos_small n c ltac:(lia) Hc) as (q & -> & Hq & Hfine).
  cbn [mant expo].
  set (s := 2 ^ (- q)) in *.
  assert (Hs : 0 < s) by (apply Z.pow_pos_nonneg; lia).
  set (m := round_half_even (n * s) c).
  set (K := - ((- n) `div` c)).
  assert (HK : (K - 1) * c < n <= K * c).
  { unfold K. pose proof (Z.div_mod (- n) c ltac:(lia)) as H1.
    pose proof (Z.mod_pos_bound (- n) c Hc) as H2. nia. }
  assert (Hm0 : 0 <= m) by (apply round_half_even_nonneg; nia).
  assert (HmK : m <= K * s) by (apply round_half_even_le; nia).
  assert (Hceil : forall x, - ((- m) `div` s) <= x <-> m <= x * s).
  { intros x. pose proof (Z.div_mod (- m) s ltac:(lia)) as H1.
    pose proof (Z.mod_pos_bound (- m) s Hs) as H2. split; nia. }
  assert (Hval : math_ceil {| mant := Z.sgn n * Z.sgn c * m; expo := q |}
                 = - ((- m) `div` s)).
  { unfold math_ceil. cbn [mant expo].
    rewrite (Z.sgn_pos n), (Z.sgn_pos c) by lia.
    replace (1 * 1 * m) with m by lia.
    destruct (Z.leb_spec 0 q) as [H0|H0]; [|reflexivity].
    assert (q = 0) as Hq0 by lia. unfold s. rewrite Hq0. simpl.
    rewrite Z.div_1_r. lia. }
  assert (Hover : (0 <=? q) && (2 ^ 1024 <=? m * 2 ^ q) = false).
  { destruct (Z.leb_spec 0 q) as [H0|H0]; [|reflexivity]. simpl.
    assert (q = 0) as Hq0 by lia. rewrite Hq0. simpl.
    apply Z.leb_gt. unfold s in HmK. rewrite Hq0 in HmK. simpl in HmK.
    assert (K <= n) by nia.
    assert (2 ^ 53 < 2 ^ 1024) by (apply Z.pow_lt_mono_r; lia).
    lia. }
  rewrite Hover. simpl rbind. rewrite Hval.
  eexists. split; [reflexivity|].
  split; [|split].
  - pose proof (Z.div_mod (- m) s ltac:(lia)) as H1.
    pose proof (Z.mod_pos_bound (- m) s Hs) as H2. nia.
  - intros _. apply Hceil in HmK. nia.
  - intros Hbig. specialize (Hfine Hbig).
    assert (Hgt : (K - 1) * s < m) by (apply round_half_even_gt; nia).
    assert (Hk : ~ - ((- m) `div` s) <= K - 1) by (rewrite Hceil; lia).
    nia.
Qed.


(** Slicing by a work item takes [chunk_size] entries after skipping the ones
    of the work items before it. *)
Lemma getslice_work_item {A} (l : list A) (c : Z) (i : nat) :
  0 < c ->
  getslice l (slice_of c (Z.of_nat i * c))
  = take (Z.to_nat c) (drop (i * Z.to_nat c) l).
Proof.
  intros Hc. unfold getslice, slice_indices, slice_of, clip_index. simpl.
  destruct (Z.ltb_spec (Z.of_nat i * c) 0) as [H0|_]; [nia|].
  destruct (Z.ltb_spec (Z.of_nat i * c + c) 0) as [H0|_]; [nia|].
  set (n := List.length l).
  destruct (Z.le_gt_cases (Z.of_nat n) (Z.of_nat i * c)) as [Hge|Hlt].
  - rewrite !Z.min_r by lia. rewrite !Nat2Z.id.
    rewrite (drop_ge l n) by (unfold n; lia).
    rewrite (drop_ge l (i * Z.to_nat c)) by (fold n; nia).
    now rewrite !take_nil.
  - rewrite (Z.min_l (Z.of_nat i * c)) by lia.
    replace (Z.to_nat (Z.of_nat i * c)) with (i * Z.to_nat c)%nat by nia.
    destruct (Z.le_gt_cases (Z.of_nat i * c + c) (Z.of_nat n)) as [Hfull|Hcut].
    + rewrite Z.min_l by lia. f_equal. nia.
    + rewrite Z.min_r by lia. rewrite Nat2Z.id.
      rewrite !take_ge; [reflexivity| |]; rewrite length_drop; fold n; nia.
Qed.

(** Consecutive pieces of [c] entries make up the list again. *)
Lemma concat_pieces {A} (c k : nat) (l : list A) :
  (List.length l <= k * c)%nat ->
  concat (map (fun i : nat => take c (drop (i * c) l)) (seq 0 k)) = l.
Proof.
  revert l. induction k as [|k IH]; intros l Hl.
  - destruct l; [reflexivity | simpl in Hl; lia].
  - simpl seq. rewrite <- seq_shift, map_cons, map_map. simpl concat.
    rewrite drop_0.
    rewrite (map_ext _ (fun i : nat => take c (drop (i * c) (drop c l)))).
    + rewrite IH by (rewrite length_drop; lia). apply take_drop.
    + intros i. rewrite drop_drop. reflexivity.
Qed.

(** C4, as stated for every positive chunk size, fails: line 105 divides in
    floating point.  With the chunk size [10 ^ 330] the quotient of the four
    entries of the six-hourly index of 2017-01-01 is rounded to zero, so the
    chunk count is 0, no work item is created, and the chunks do not cover
    the time index. *)
Lemma huge_chunk_size_no_work_item :
  let flags := {| TIME_START := ymdh 2017 1 0; TIME_STOP := ymdh 2017 1 18;
                  TIME_CHUNK_SIZE := Some (10 ^ 330) |} in
  0 < 10 ^ 330
  /\ ceil_div 4 (10 ^ 330) = Ok 0
  /\ exists s,
       main_setup flags (Samples.hourly 2) Samples.hourly_chunks = Ok s
       /\ times s = Samples.four_times
       /\ time_chunk_size s = 10 ^ 330
       /\ time_chunk_count s = 0
       /\ work_items s = []
       /\ concat (map (fun start =>
                         getslice (times s) (slice_of (time_chunk_size s) start))
                      (work_items s)) <> times s.
Proof.
  split; [reflexivity|]. split; [vm_compute; reflexivity|].
  eexists. split; [vm_compute; reflexivity|].
  repeat split. discriminate.
Qed.

(** C4, amended: for a chunk size between 1 and [2 ^ 1074] and a non-empty
    time index of fewer than [2 ^ 53] entries, where the float quotient of
    line 105 has the ceiling of the exact one, the work items are the
    offsets [i * chunk_size] for [i < ceil(length / chunk_size)]; the slice
    of work item [i] selects the positions
    [i * chunk_size, min((i + 1) * chunk_size, length)) of the time index; the
    slices taken in order make up the time index again, so they cover it
    without overlap and without gap; every slice but the last has
    [chunk_size] entries.  A completed setup dispatches exactly these. *)
Theorem chunks_partition_time_index (index : list Timestamp) (chunk_size : Z) :
  0 < chunk_size < 2 ^ 1074 ->
  index <> [] ->
  Z.of_nat (List.length index) < 2 ^ 53 ->
  let len := Z.of_nat (List.length index) in
  exists count,
    ceil_div len chunk_size = Ok count
    /\ (count - 1) * chunk_size < len <= count * chunk_size
    /\ create_work_items chunk_size count
       = map (fun i : nat => Z.of_nat i * chunk_size) (seq 0 (Z.to_nat count))
    /\ (forall i : nat, (i < Z.to_nat count)%nat ->
          slice_indices (slice_of chunk_size (Z.of_nat i * chunk_size))
                        (List.length index)
          = (Z.to_nat (Z.of_nat i * chunk_size),
             Z.to_nat (Z.min ((Z.of_nat i + 1) * chunk_size) len)))
    /\ concat (map (fun start => getslice index (slice_of chunk_size start))
                   (create_work_items chunk_size count)) = index
    /\ (forall i : nat, (i + 1 < Z.to_nat count)%nat ->
          List.length (getslice index
                         (slice_of chunk_size (Z.of_nat i * chunk_size)))
          = Z.to_nat chunk_size)
    /\ (forall flags clim chunks s,
          main_setup flags clim chunks = Ok s ->
          times s = index -> time_chunk_size s = chunk_size ->
          time_chunk_count s = count
          /\ work_items s = create_work_items chunk_size count).
Proof.
  intros [Hc Hbig] Hne Hshort len.
  assert (Hlen : 0 < len) by (unfold len; destruct index; simpl; [easy | lia]).
  destruct (ceil_div_pos len chunk_size ltac:(unfold len; lia) Hc)
    as (count & Hcount & _ & Hlo & Hhi).
  specialize (Hhi Hbig).
  assert (Hk : 0 < count) by nia.
  specialize (Hlo Hk).
  assert (Hitems : create_work_items chunk_size count
                   = map (fun i : nat => Z.of_nat i * chunk_size)
                         (seq 0 (Z.to_nat count))).
  { unfold create_work_items, range. now rewrite map_map. }
  exists count. split; [exact Hcount|]. split; [lia|]. split; [exact Hitems|].
  split; [|split; [|split]].
  - intros i Hi. unfold slice_indices, slice_of, clip_index. simpl.
    destruct (Z.ltb_spec (Z.of_nat i * chunk_size) 0) as [H0|_]; [nia|].
    destruct (Z.ltb_spec (Z.of_nat i * chunk_size + chunk_size) 0) as [H0|_];
      [nia|].
    fold len. f_equal.
    + f_equal. apply Z.min_l. nia.
    + f_equal. f_equal. lia.
  - rewrite Hitems, map_map.
    rewrite (map_ext _ (fun i : nat =>
               take (Z.to_nat chunk_size) (drop (i * Z.to_nat chunk_size) index))).
    + apply concat_pieces. unfold len in Hhi. nia.
    + intros i. now apply getslice_work_item.
  - intros i Hi. rewrite getslice_work_item by exact Hc.
    rewrite length_take, length_drop. unfold len in Hlo. nia.
  - intros flags clim chunks s Hs Ht Hsize.
    apply main_setup_Ok in Hs as (hd & t0 & _ & _ & _ & _ & _ & H6 & _ & H8).
    rewrite Ht, Hsize in H6. fold len in H6. rewrite Hcount in H6.
    injection H6 as H6. split; [now symmetry|].
    now rewrite H8, Hsize, <- H6.
Qed.

(** Five time steps in chunks of two: offsets 0, 2 and 4. *)
Lemma chunks_partition_time_index_witness :
  exists count,
    ceil_div 5 2 = Ok count
    /\ create_work_items 2 count = [0; 2; 4].
Proof.
  destruct (chunks_partition_time_index
              [ymdh 2017 1 0; ymdh 2017 2 0; ymdh 2017 3 0; ymdh 2017 4 0;
               ymdh 2017 5 0] 2)
    as (count & H1 & H2 & H3 & _).
  - split; [lia | reflexivity].
  - discriminate.
  - reflexivity.
  - exists count. split; [exact H1|].
    simpl in H2. assert (count = 3) as -> by lia. reflexivity.
Defined.

(** ** C5: the resolved chunk size *)

(** C5: without an explicit [time_chunk_size], the chunk size is the
    [dayofyear] chunk extent of the input times its [hour] chunk extent, taken
    as 1 when the input chunks have no [hour] key; extents 30 and 4 give 120;
    an explicit [time_chunk_size] is used as it is; and this is the chunk size
    of every completed setup. *)
Theorem chunk_size_resolution flags (input_chunks : list (string * Z)) :
  (forall d, TIME_CHUNK_SIZE flags = None ->
     dict_get input_chunks "dayofyear" = Some d ->
     resolve_time_chunk_size flags input_chunks
     = Ok (d * default 1 (dict_get input_chunks "hour"))
     /\ (dict_get input_chunks "hour" = None ->
         resolve_time_chunk_size flags input_chunks = Ok d))
  /\ (TIME_CHUNK_SIZE flags = None ->
      dict_get input_chunks "dayofyear" = Some 30 ->
      dict_get input_chunks "hour" = Some 4 ->
      resolve_time_chunk_size flags input_chunks = Ok 120)
  /\ (forall c, TIME_CHUNK_SIZE flags = Some c ->
      resolve_time_chunk_size flags input_chunks = Ok c)
  /\ (forall clim s, main_setup flags clim input_chunks = Ok s ->
      resolve_time_chunk_size flags input_chunks = Ok (time_chunk_size s)).
Proof.
  unfold resolve_time_chunk_size. repeat split.
  - intros. rewrite H, H0. reflexivity.
  - intros Hh. rewrite H, H0, Hh. simpl. f_equal. lia.
  - intros H1 H2 H3. rewrite H1, H2, H3. reflexivity.
  - intros c H. rewrite H. reflexivity.
  - intros clim s Hs.
    apply main_setup_Ok in Hs as (hd & t0 & _ & _ & _ & _ & H5 & _).
    exact H5.
Qed.

(** Extents [dayofyear=30, hour=4] without an explicit size: 120, both as
    resolved and in the setup of [main]. *)
Lemma chunk_size_resolution_witness :
  let flags := {| TIME_START := ymdh 2017 1 0; TIME_STOP := ymdh 2017 1 18;
                  TIME_CHUNK_SIZE := None |} in
  resolve_time_chunk_size flags Samples.hourly_chunks = Ok 120
  /\ resolve_time_chunk_size flags Samples.daily_chunks = Ok 30
  /\ resolve_time_chunk_size
       {| TIME_START := 0; TIME_STOP := 0; TIME_CHUNK_SIZE := Some 7 |}
       Samples.hourly_chunks = Ok 7
  /\ (forall s, main_setup flags (Samples.hourly 2) Samples.hourly_chunks = Ok s ->
      time_chunk_size s = 120).
Proof.
  intros flags.
  pose proof (chunk_size_resolution flags Samples.hourly_chunks)
    as (_ & H120 & _ & Hsetup).
  pose proof (chunk_size_resolution flags Samples.daily_chunks) as (Hd & _).
  pose proof (chunk_size_resolution
                {| TIME_START := 0; TIME_STOP := 0; TIME_CHUNK_SIZE := Some 7 |}
                Samples.hourly_chunks) as (_ & _ & Hexp & _).
  split; [apply H120; reflexivity|].
  split; [apply (Hd 30); reflexivity|].
  split; [apply Hexp; reflexivity|].
  intros s Hs. apply Hsetup in Hs.
  rewrite (H120 eq_refl eq_refl eq_refl) in Hs. now injection Hs.
Defined.

(** ** C8: the chunks of the output store *)

Lemma dict_get_set_eq {V} (d : list (string * V)) k v :
  dict_get (dict_set d k v) k = Some v.
Proof.
  induction d as [|[k' v'] d IH]; simpl.
  - now rewrite String.eqb_refl.
  - destruct (String.eqb_spec k' k) as [->|Hne]; simpl.
    + now rewrite String.eqb_refl.
    + apply String.eqb_neq in Hne. now rewrite Hne.
Qed.

Lemma dict_get_set_ne {V} (d : list (string * V)) k k' v :
  k <> k' -> dict_get (dict_set d k v) k' = dict_get d k'.
Proof.
  intros Hne. induction d as [|[k0 v0] d IH]; simpl.
  - apply String.eqb_neq in Hne. now rewrite Hne.
  - destruct (String.eqb_spec k0 k) as [->|Hne0]; simpl.
    + apply String.eqb_neq in Hne. now rewrite Hne.
    + now rewrite IH.
Qed.

(** Setting every key of [l] to [-1], as the dict comprehension does. *)
Lemma dict_get_fill (l : list string) (d0 : list (string * Z)) k :
  dict_get (fold_left (fun d dim => dict_set d dim (-1)) l d0) k
  = if str_in k l then Some (-1) else dict_get d0 k.
Proof.
  revert d0. induction l as [|x l IH]; intros d0; simpl; [reflexivity|].
  rewrite IH. fold (str_in k l). destruct (str_in k l); [now rewrite orb_true_r|].
  rewrite orb_false_r. destruct (String.eqb_spec k x) as [->|Hne].
  - apply dict_get_set_eq.
  - apply dict_get_set_ne. congruence.
Qed.

Lemma str_in_In k (l : list string) : str_in k l = true <-> In k l.
Proof.
  unfold str_in. rewrite existsb_exists. split.
  - intros (x & Hx & Heq). apply String.eqb_eq in Heq. now subst.
  - intros H. exists k. split; [exact H | apply String.eqb_refl].
Qed.

Lemma str_in_filter k (p : string -> bool) (l : list string) :
  str_in k (List.filter p l) = str_in k l && p k.
Proof.
  apply eq_true_iff_eq. rewrite andb_true_iff, !str_in_In, filter_In.
  reflexivity.
Qed.

Lemma dim_axis_lookup d ds a :
  dim_axis d ds = Some a -> ds !! a = Some d.
Proof.
  revert a. induction ds as [|d' ds IH]; intros a; simpl; [discriminate|].
  destruct (String.eqb_spec d' d) as [->|_].
  - now intros [= <-].
  - destruct (dim_axis d ds) as [a'|]; simpl; [|discriminate].
    intros [= <-]. now apply IH.
Qed.

Lemma dim_axis_In d ds : In d ds -> exists a, dim_axis d ds = Some a.
Proof.
  induction ds as [|d' ds IH]; simpl; [tauto|].
  intros H. destruct (String.eqb_spec d' d) as [->|Hne]; [eauto|].
  destruct H as [H|H]; [congruence|].
  destruct (IH H) as [a ->]. simpl. eauto.
Qed.

(** The periodic dimensions of a completed first stage. *)
Lemma time_dims_cases clim hd tds :
  hour_delta_time_dims clim = Ok (hd, tds) ->
  tds = if dict_mem (coords clim) "hour"
        then ["hour"; "dayofyear"] else ["dayofyear"].
Proof.
  unfold hour_delta_time_dims.
  destruct (dict_mem (coords clim) "hour"); simpl.
  - destruct (dict_get (coords clim) "hour"); [|discriminate].
    intros H.
    apply rbind_Ok in H as (h1 & _ & H).
    apply rbind_Ok in H as (h0 & _ & H).
    apply rbind_Ok in H as (d & _ & H). now injection H.
  - intros H. now injection H.
Qed.

Lemma find_dim_size_In vars d k v n :
  In (k, v) vars -> var_size v d = Some n ->
  exists m, find_dim_size vars d = Some m.
Proof.
  induction vars as [|[k' v'] vars IH]; simpl; [tauto|].
  intros [Heq|Hin] Hn.
  - injection Heq as -> ->. rewrite Hn. eauto.
  - destruct (var_size v' d); [eauto | now apply IH].
Qed.

Lemma find_dim_size_Some vars d n :
  find_dim_size vars d = Some n ->
  exists k v m, In (k, v) vars /\ var_size v d = Some m.
Proof.
  induction vars as [|[k v] vars IH]; simpl; [discriminate|].
  destruct (var_size v d) as [m|] eqn:E.
  - intros _. exists k, v, m. split; [now left | exact E].
  - intros H. destruct (IH H) as (k' & v' & m & Hin & Hm).
    exists k', v', m. split; [now right | exact Hm].
Qed.

Lemma rmap_In {A B} (g : A -> result B) (l : list A) (l' : list B) x :
  rmap g l = Ok l' -> In x l -> exists y, g x = Ok y /\ In y l'.
Proof.
  revert l'. induction l as [|a l IH]; intros l'; simpl; [tauto|].
  intros H Hin. apply rbind_Ok in H as (b & Hb & H).
  apply rbind_Ok in H as (bs & Hbs & H). injection H as <-.
  destruct Hin as [->|Hin].
  - exists b. split; [exact Hb | now left].
  - destruct (IH _ Hbs Hin) as (y & Hy & Hin'). exists y.
    split; [exact Hy | now right].
Qed.

Lemma var_size_dims v d n : var_size v d = Some n -> In d (dims v).
Proof.
  unfold var_size. destruct (dim_axis d (dims v)) as [a|] eqn:E; [|discriminate].
  intros _. apply dim_axis_lookup in E. apply list_elem_of_In.
  eapply list_elem_of_lookup_2. exact E.
Qed.

(** Reading position 0 along other dimensions keeps a dimension. *)
Lemma isel0_var_keeps ds v v' d n :
  isel0_var ds v = Ok v' -> var_size v d = Some n -> str_in d ds = false ->
  exists m, var_size v' d = Some m.
Proof.
  unfold isel0_var. intros H Hn Hd.
  destruct (forallb _ (dims v)); [injection H as <-; eauto|].
  destruct (existsb _ (dims v)); [discriminate|]. injection H as <-.
  unfold var_size at 1. simpl.
  assert (Hin : In d (List.filter (fun d => negb (str_in d ds)) (dims v))).
  { apply filter_In. split; [now apply var_size_dims in Hn | now rewrite Hd]. }
  destruct (dim_axis_In _ _ Hin) as [a Ha]. rewrite Ha.
  apply dim_axis_lookup in Ha. rewrite list_lookup_fmap, Ha. simpl. eauto.
Qed.

(** A completed setup means that the climatology has no dimension called
    [time]: [expand_dims] would have refused it. *)
Lemma main_setup_time_free flags clim chunks s n :
  main_setup flags clim chunks = Ok s -> dim_size clim "time" = Some n -> False.
Proof.
  intros Hs Hn.
  apply main_setup_Ok in Hs as (hd & t0 & H1 & _ & H3 & H4 & _).
  apply time_dims_cases in H1.
  assert (Hnt : str_in "time" (time_dims s) = false)
    by (rewrite H1; now destruct (dict_mem (coords clim) "hour")).
  assert (Ht0 : exists m, dim_size t0 "time" = Some m).
  { unfold isel0_drop in H3. destruct (forallb _ (time_dims s)); [|discriminate].
    apply rbind_Ok in H3 as (cs & Hcs & H3).
    apply rbind_Ok in H3 as (vs & Hvs & H3). injection H3 as <-.
    unfold dim_size, variables in Hn |- *. simpl coords. simpl data_vars.
    apply find_dim_size_Some in Hn as (k & v & m & Hin & Hm).
    apply in_app_or in Hin as [Hin|Hin].
    - destruct (rmap_In _ _ _ _ Hcs Hin) as ([k' v'] & Hy & Hin').
      simpl in Hy. apply rbind_Ok in Hy as (v1 & Hv1 & Hy).
      injection Hy as <- <-.
      destruct (isel0_var_keeps _ _ _ _ _ Hv1 Hm Hnt) as [m' Hm'].
      eapply find_dim_size_In; [|exact Hm'].
      apply in_or_app. left. apply filter_In. split; [exact Hin'|].
      simpl. apply var_size_dims in Hm'.
      destruct (dims v1); [destruct Hm'|]. now rewrite andb_false_r.
    - assert (Hin2 : In (k, {| dims := dims v; shape := shape v;
                               values := fun _ => 0 |})
                        (data_vars (make_template clim))).
      { simpl. unfold map_vars. apply in_map_iff. exists (k, v). split;
          [reflexivity | exact Hin]. }
      destruct (rmap_In _ _ _ _ Hvs Hin2) as ([k' v'] & Hy & Hin').
      simpl in Hy. apply rbind_Ok in Hy as (v1 & Hv1 & Hy).
      injection Hy as <- <-.
      destruct (isel0_var_keeps _ _ _ _ m Hv1 Hm Hnt) as [m' Hm'].
      eapply find_dim_size_In; [|exact Hm'].
      apply in_or_app. right. exact Hin'. }
  destruct Ht0 as [m Hm]. unfold expand_dims_time in H4. rewrite Hm in H4.
  discriminate.
Qed.

(** C8: in the chunks handed to the output store, [time] has the resolved
    chunk size, and every dimension of the input chunks that is neither a
    periodic dimension nor [time] itself has [-1], a single chunk over the
    whole dimension; there are no other entries.  In a completed setup the
    periodic dimensions are [hour] and [dayofyear], or [dayofyear] alone for
    a climatology without [hour] coordinate, and no dimension of the
    climatology is called [time], so that no dimension of the input is left
    out. *)
Theorem output_chunks_layout (input_chunks : list (string * Z))
    (periodic : list string) (chunk_size : Z) :
  let out := make_output_chunks input_chunks periodic chunk_size in
  dict_get out "time" = Some chunk_size
  /\ (forall dim, In dim (dict_keys input_chunks) ->
        ~ In dim periodic -> dim <> "time" -> dict_get out dim = Some (-1))
  /\ (forall dim size, dict_get out dim = Some size ->
        dim = "time" /\ size = chunk_size
        \/ In dim (dict_keys input_chunks) /\ ~ In dim periodic /\ size = -1)
  /\ (forall flags clim s, main_setup flags clim input_chunks = Ok s ->
        time_dims s = periodic -> time_chunk_size s = chunk_size ->
        output_chunks s = out
        /\ periodic = (if dict_mem (coords clim) "hour"
                       then ["hour"; "dayofyear"] else ["dayofyear"])
        /\ forall dim n, dim_size clim dim = Some n -> dim <> "time").
Proof.
  intros out. unfold out, make_output_chunks.
  split; [apply dict_get_set_eq|]. split; [|split].
  - intros dim Hin Hnp Hnt. rewrite dict_get_set_ne by congruence.
    rewrite dict_get_fill, str_in_filter.
    apply str_in_In in Hin. rewrite Hin. simpl.
    destruct (str_in dim periodic) eqn:E; [now apply str_in_In in E|reflexivity].
  - intros dim size H. destruct (String.eqb_spec dim "time") as [->|Hne].
    + rewrite dict_get_set_eq in H. injection H as <-. now left.
    + rewrite dict_get_set_ne in H by congruence.
      rewrite dict_get_fill, str_in_filter in H.
      destruct (str_in dim (dict_keys input_chunks)) eqn:E1; [|discriminate].
      destruct (str_in dim periodic) eqn:E2; [discriminate|].
      simpl in H. injection H as <-. right.
      split; [now apply str_in_In|]. split; [|reflexivity].
      intros Hin. apply str_in_In in Hin. congruence.
  - intros flags clim s Hs Hp Hc.
    pose proof Hs as Hs'.
    apply main_setup_Ok in Hs as (hd & t0 & H1 & _ & _ & _ & _ & _ & H7 & _).
    split; [now rewrite H7, Hp, Hc|]. split.
    + rewrite <- Hp. now apply time_dims_cases in H1.
    + intros dim n Hn ->. exact (main_setup_time_free _ _ _ _ _ Hs' Hn).
Qed.

(** The output chunks of the six-hourly sample: [latitude] unchunked, [time]
    in chunks of 120. *)
Lemma output_chunks_layout_witness :
  dict_get (make_output_chunks Samples.hourly_chunks ["hour"; "dayofyear"] 120)
           "latitude" = Some (-1)
  /\ make_output_chunks Samples.hourly_chunks ["hour"; "dayofyear"] 120
     = [("latitude", -1); ("time", 120)].
Proof.
  split; [|reflexivity].
  apply (proj1 (proj2 (output_chunks_layout Samples.hourly_chunks
                         ["hour"; "dayofyear"] 120))).
  - simpl. tauto.
  - simpl. intros [H|[H|[]]]; discriminate H.
  - discriminate.
Defined.

(** ** C10: the period step read from the [hour] coordinate *)

(** C10: with an [hour] coordinate the period step is [hour[1] - hour[0]];
    for a one-dimensional [hour] coordinate with at least two entries that is
    the step [main] uses, and with exactly one entry the unguarded read of
    [hour[1]] raises [IndexError]: the setup fails and [main] raises it
    without running the pipeline. *)
Theorem hour_step_needs_two_entries (climatology : Dataset) (hour_coord : XVariable)
    (d : string) (n : nat) :
  dict_get (coords climatology) "hour" = Some hour_coord ->
  dims hour_coord = [d] ->
  shape hour_coord = [n] ->
  ((2 <= n)%nat ->
     hour_delta_time_dims climatology
     = Ok (values hour_coord [1%nat] - values hour_coord [0%nat],
           ["hour"; "dayofyear"]))
  /\ (n = 1%nat ->
      hour_delta_time_dims climatology = Raise IndexError
      /\ forall p flags input_chunks st,
           main_setup flags climatology input_chunks = Raise IndexError
           /\ main p flags (climatology, input_chunks) st
              = (Raise IndexError, st ++ [climatology])).
Proof.
  intros Hget Hd Hs.
  assert (Hmem : dict_mem (coords climatology) "hour" = true)
    by (unfold dict_mem; now rewrite Hget).
  split.
  - intros Hn. unfold hour_delta_time_dims. rewrite Hmem, Hget. simpl.
    unfold getitem0. rewrite Hd, Hs.
    destruct (Nat.ltb_spec 1 n) as [_|Hlt]; [|lia].
    destruct (Nat.ltb_spec 0 n) as [_|Hlt]; [|lia].
    reflexivity.
  - intros ->.
    assert (Hraise : hour_delta_time_dims climatology = Raise IndexError).
    { unfold hour_delta_time_dims. rewrite Hmem, Hget. simpl.
      unfold getitem0. rewrite Hd, Hs. reflexivity. }
    split; [exact Hraise|]. intros p flags input_chunks st.
    assert (Hsetup : main_setup flags climatology input_chunks = Raise IndexError)
      by (unfold main_setup; now rewrite Hraise).
    split; [exact Hsetup | now apply main_setup_Raise].
Qed.

(** A climatology whose [hour] coordinate is the single entry 0 makes [main]
    fail with [IndexError]; the six-hourly one has the step 6. *)
Lemma hour_step_needs_two_entries_witness :
  main_setup {| TIME_START := ymdh 2017 1 0; TIME_STOP := ymdh 2017 1 18;
                TIME_CHUNK_SIZE := None |}
             Samples.single_hour Samples.hourly_chunks = Raise IndexError
  /\ hour_delta_time_dims (Samples.hourly 3) = Ok (6, ["hour"; "dayofyear"]).
Proof.
  split.
  - refine (proj1 (proj2 (proj2 (hour_step_needs_two_entries Samples.single_hour
                                   (var1d "hour" [0]) "hour" 1
                                   eq_refl eq_refl eq_refl) eq_refl)
                    Samples.accepting _ _ [])).
  - exact (proj1 (hour_step_needs_two_entries (Samples.hourly 3)
                    (var1d "hour" [0; 6; 12; 18]) "hour" 4
                    eq_refl eq_refl eq_refl) (le_S _ _ (le_S _ _ (le_n 2)))).
Defined.

(** ** C2: a reversed time range and a non-positive chunk size *)








(** ** C9: [select_climatology] is a function of its arguments *)

Lemma lookup_new (st : list Dataset) ds : (st ++ [ds]) !! List.length st = Some ds.
Proof. rewrite lookup_app_r by lia. now rewrite Nat.sub_diag. Qed.

Lemma insert_new (st : list Dataset) ds ds' :
  <[List.length st := ds']> (st ++ [ds]) = st ++ [ds'].
Proof.
  rewrite insert_app_r_alt by lia. now rewrite Nat.sub_diag.
Qed.

(** The loop over the variables reads the chunk and leaves the store alone. *)
Lemma yield_fragments_run (start : Z) (chunk : ref) (ds : Dataset)
    (names : list string) (st : list Dataset) :
  st !! chunk = Some ds ->
  mmap (fun variable_name =>
          let key := {| offsets := [("time", start)];
                        vars := [variable_name] |} in
          bind (getitem_list_ref chunk [variable_name])
               (fun fragment => ret (key, fragment)))
       names st
  = (rmap (fun variable_name =>
             let? fragment := getitem_list ds [variable_name] in
             Ok ({| offsets := [("time", start)]; vars := [variable_name] |},
                 fragment))
          names, st).
Proof.
  intros Hds.
  set (f := fun variable_name : string => bind _ _).
  assert (Hf : forall name,
             f name st
             = (let? fragment := getitem_list ds [name] in
                Ok ({| offsets := [("time", start)]; vars := [name] |},
                    fragment), st)).
  { intros name. unfold f, bind, getitem_list_ref, bind, load, lift.
    rewrite Hds. destruct (getitem_list ds [name]); reflexivity. }
  induction names as [|name names IH]; [reflexivity|].
  change (mmap f (name :: names) st)
    with (bind (f name) (fun b => bind (mmap f names)
                                       (fun bs => ret (b :: bs))) st).
  unfold bind at 1. rewrite Hf. simpl rmap.
  destruct (getitem_list ds [name]) as [fragment|e]; simpl; [|reflexivity].
  unfold bind at 1. rewrite IH.
  destruct (rmap _ names); reflexivity.
Qed.

(** The in-place deletion of a coordinate of the newest object. *)
Lemma del_coord_new (st : list Dataset) ds name :
  del_coord_ref (List.length st) name (st ++ [ds])
  = match del_coord ds name with
    | Ok ds' => (Ok tt, st ++ [ds'])
    | Raise e => (Raise e, st ++ [ds])
    end.
Proof.
  unfold del_coord_ref, bind, load, lift, assign. rewrite lookup_new.
  destruct (del_coord ds name); [|reflexivity].
  now rewrite insert_new.
Qed.

(** A run of [select_climatology] returns [selected], computed from the
    dataset behind the reference alone, and extends the store by at most the
    one dataset it made. *)
Lemma select_climatology_run sl (r : ref) index (st : list Dataset) clim :
  st !! r = Some clim ->
  exists made,
    select_climatology sl r index st = (selected sl clim index, st ++ made).
Proof.
  intros Hr. unfold select_climatology, selected.
  unfold bind at 1. unfold coords_contains, bind at 1, load. rewrite Hr.
  unfold ret at 1.
  set (chunk_times := getslice index sl).
  destruct (dict_mem (coords clim) "hour").
  - unfold bind at 1. unfold bind at 1. unfold sel_ref at 1.
    unfold bind at 1, load. rewrite Hr. unfold bind at 1, lift.
    destruct (sel clim _) as [chunk|e]; simpl rbind; cbv beta iota;
      [|exists []; now rewrite app_nil_r].
    unfold new. cbv beta iota. unfold bind at 1. rewrite del_coord_new.
    destruct (del_coord chunk "dayofyear") as [chunk1|e]; simpl rbind;
      cbv beta iota; [|now exists [chunk]].
    unfold bind at 1. rewrite del_coord_new.
    destruct (del_coord chunk1 "hour") as [chunk2|e]; simpl rbind;
      cbv beta iota; [|now exists [chunk1]].
    unfold ret at 1, bind at 1, iter_data_vars, bind at 1, load.
    rewrite lookup_new. unfold ret at 1.
    rewrite (yield_fragments_run _ _ chunk2) by apply lookup_new.
    now exists [chunk2].
  - unfold bind at 1. unfold bind at 1. unfold sel_ref at 1.
    unfold bind at 1, load. rewrite Hr. unfold bind at 1, lift.
    destruct (sel clim _) as [chunk|e]; simpl rbind; cbv beta iota;
      [|exists []; now rewrite app_nil_r].
    unfold new. cbv beta iota. unfold bind at 1. rewrite del_coord_new.
    destruct (del_coord chunk "hour") as [chunk1|e]; simpl rbind;
      cbv beta iota; [|now exists [chunk]].
    unfold ret at 1, bind at 1, iter_data_vars, bind at 1, load.
    rewrite lookup_new. unfold ret at 1.
    rewrite (yield_fragments_run _ _ chunk1) by apply lookup_new.
    now exists [chunk1].
Qed.

(** C9: a run of [select_climatology] leaves every object of the store as it
    was, the climatology among them (the time index is an immutable value);
    what it returns is determined by the slice, the contents of the
    climatology and the time index: a second run, started from the store the
    first one left, returns the same sequence of pairs (or raises the same
    exception), and so does a run from any other store that holds the same
    climatology, at whatever address. *)
Theorem select_climatology_pure sl (r : ref) index (st : list Dataset) clim :
  st !! r = Some clim ->
  let first_run := select_climatology sl r index st in
  (forall a ds, st !! a = Some ds -> snd first_run !! a = Some ds)
  /\ snd first_run !! r = Some clim
  /\ select_climatology sl r index (snd first_run)
     = (fst first_run, snd (select_climatology sl r index (snd first_run)))
  /\ fst (select_climatology sl r index (snd first_run)) = fst first_run
  /\ (forall (st' : list Dataset) (r' : ref),
        st' !! r' = Some clim ->
        fst (select_climatology sl r' index st') = fst first_run).
Proof.
  intros Hr first_run.
  destruct (select_climatology_run sl r index st clim Hr) as (made & Hrun).
  unfold first_run. rewrite Hrun. simpl.
  assert (Hkeep : forall a ds, st !! a = Some ds -> (st ++ made) !! a = Some ds).
  { intros a ds Ha. rewrite lookup_app_l; [exact Ha|].
    now apply lookup_lt_Some in Ha. }
  split; [exact Hkeep|]. split; [now apply Hkeep|].
  destruct (select_climatology_run sl r index (st ++ made) clim (Hkeep _ _ Hr))
    as (made' & Hrun').
  rewrite Hrun'. simpl. split; [reflexivity|]. split; [reflexivity|].
  intros st' r' Hr'.
  destruct (select_climatology_run sl r' index st' clim Hr') as (made'' & Hrun'').
  now rewrite Hrun''.
Qed.

(** Two runs on the six-hourly sample, the second from the store left by the
    first, return the same. *)
Lemma select_climatology_pure_witness :
  let st := [Samples.hourly 2] in
  let first_run := select_climatology (mkSlice 0 4) 0%nat Samples.four_times st in
  fst (select_climatology (mkSlice 0 4) 0%nat Samples.four_times (snd first_run))
  = fst first_run
  /\ snd first_run !! 0%nat = Some (Samples.hourly 2).
Proof.
  intros st first_run.
  pose proof (select_climatology_pure (mkSlice 0 4) 0%nat Samples.four_times st
                (Samples.hourly 2) eq_refl) as (_ & Hclim & _ & Hsame & _).
  split; [exact Hsame | exact Hclim].
Defined.

(** ** Facts about dicts and label selection *)

Lemma dict_get_map_vars (f : XVariable -> XVariable) d k :
  dict_get (map_vars f d) k = f <$> dict_get d k.
Proof.
  induction d as [|[k' v] d IH]; simpl; [reflexivity|].
  destruct (String.eqb k' k); [reflexivity | exact IH].
Qed.

Lemma dict_keys_map_vars (f : XVariable -> XVariable) d :
  dict_keys (map_vars f d) = dict_keys d.
Proof. unfold dict_keys, map_vars. rewrite map_map. reflexivity. Qed.

Lemma dict_get_app {V} (d1 d2 : list (string * V)) k :
  dict_get (d1 ++ d2) k
  = match dict_get d1 k with Some v => Some v | None => dict_get d2 k end.
Proof.
  induction d1 as [|[k' v] d1 IH]; simpl; [reflexivity|].
  destruct (String.eqb k' k); [reflexivity | exact IH].
Qed.

Lemma dict_get_del_eq {V} (d : list (string * V)) k :
  dict_get (dict_del d k) k = None.
Proof.
  induction d as [|[k' v] d IH]; simpl; [reflexivity|].
  destruct (String.eqb k' k) eqn:E; [exact IH|]. simpl. now rewrite E.
Qed.

Lemma dict_get_del_ne {V} (d : list (string * V)) k k' :
  k <> k' -> dict_get (dict_del d k) k' = dict_get d k'.
Proof.
  intros Hne. induction d as [|[k0 v] d IH]; simpl; [reflexivity|].
  destruct (String.eqb_spec k0 k) as [->|Hne0].
  - apply String.eqb_neq in Hne. now rewrite Hne.
  - simpl. now rewrite IH.
Qed.

Lemma dict_get_None_keys {V} (d : list (string * V)) k :
  dict_get d k = None <-> ~ In k (dict_keys d).
Proof.
  induction d as [|[k' v] d IH]; simpl; [tauto|].
  destruct (String.eqb_spec k' k) as [->|Hne].
  - split; [discriminate | tauto].
  - rewrite IH. tauto.
Qed.

Lemma dict_get_filter_None {V} (p : string * V -> bool) d k :
  dict_get d k = None -> dict_get (List.filter p d) k = None.
Proof.
  rewrite !dict_get_None_keys. intros H Hin. apply H.
  unfold dict_keys in *. apply in_map_iff in Hin as (kv & <- & Hkv).
  apply filter_In in Hkv as [Hkv _]. now apply in_map.
Qed.

Lemma dict_get_filter_Some {V} (p : string * V -> bool) d k v :
  dict_get d k = Some v -> p (k, v) = true ->
  dict_get (List.filter p d) k = Some v.
Proof.
  intros Hget Hp. induction d as [|[k' v'] d IH]; simpl in *; [discriminate|].
  destruct (String.eqb_spec k' k) as [->|Hne].
  - injection Hget as ->. rewrite Hp. simpl. now rewrite String.eqb_refl.
  - destruct (p (k', v')); [|now apply IH]. simpl.
    apply String.eqb_neq in Hne. rewrite Hne. now apply IH.
Qed.

(** The two shapes of [sel] that [select_climatology] uses. *)
Lemma sel_one ds k1 a1 :
  sel ds [(k1, a1)]
  = let? q1 := group_indexer ds k1 in
    let? p1 := run_query k1 q1 (da_values a1) in
    let? _ := check_positions q1 (da_values a1) in
    Ok (sel_result ds [(k1, p1)] a1).
Proof.
  unfold sel. simpl.
  destruct (group_indexer ds k1) as [q1|e]; simpl; [|reflexivity].
  destruct (run_query k1 q1 (da_values a1)); simpl; [|reflexivity].
  destruct (check_positions q1 (da_values a1)); reflexivity.
Qed.

Lemma sel_two ds k1 a1 k2 a2 :
  sel ds [(k1, a1); (k2, a2)]
  = let? q1 := group_indexer ds k1 in
    let? q2 := group_indexer ds k2 in
    let? p1 := run_query k1 q1 (da_values a1) in
    let? p2 := run_query k2 q2 (da_values a2) in
    let? _ := check_positions q1 (da_values a1) in
    let? _ := check_positions q2 (da_values a2) in
    Ok (sel_result ds [(k1, p1); (k2, p2)] a1).
Proof.
  unfold sel. simpl.
  destruct (group_indexer ds k1) as [q1|e]; simpl; [|reflexivity].
  destruct (group_indexer ds k2) as [q2|e]; simpl; [|reflexivity].
  destruct (run_query k1 q1 (da_values a1)); simpl; [|reflexivity].
  destruct (run_query k2 q2 (da_values a2)); simpl; [|reflexivity].
  destruct (check_positions q1 (da_values a1)); simpl; [|reflexivity].
  destruct (check_positions q2 (da_values a2)); reflexivity.
Qed.

(** Apart from the new coordinate, the result of [sel] has the coordinates
    of the dataset it was taken from. *)
Lemma sel_result_coords ds pos a0 k :
  k <> da_dim a0 ->
  dict_mem (coords (sel_result ds pos a0)) k = dict_mem (coords ds) k.
Proof.
  intros Hne. unfold dict_mem, sel_result. simpl.
  destruct (dict_mem (variables ds) (da_dim a0)).
  - rewrite dict_get_map_vars. now destruct (dict_get (coords ds) k).
  - rewrite dict_get_app, dict_get_map_vars.
    destruct (dict_get (coords ds) k); [reflexivity|]. simpl.
    destruct (String.eqb_spec (da_dim a0) k); [congruence | reflexivity].
Qed.

(** ** C1: a climatology without [hour] coordinate *)

(** C1 does not hold of the code: for every climatology without [hour]
    coordinate, every slice and every time index, [select_climatology]
    raises an exception and yields nothing.  When the lookup of the days
    succeeds, the exception is the [KeyError] of [del chunk.coords['hour']]:
    the result of the lookup has no [hour] coordinate to delete, and its
    [dayofyear] coordinate is never removed. *)
Theorem daily_climatology_raises sl (r : ref) index (st : list Dataset) clim :
  st !! r = Some clim ->
  dict_mem (coords clim) "hour" = false ->
  let chunk_times := getslice index sl in
  let times_array :=
    {| da_values := chunk_times; da_dim := "time"; da_coord := chunk_times |} in
  exists e,
    fst (select_climatology sl r index st) = Raise e
    /\ forall chunk,
         sel clim [("dayofyear", dt_dayofyear times_array)] = Ok chunk ->
         e = KeyError "hour".
Proof.
  intros Hr Hhour chunk_times times_array.
  destruct (select_climatology_run sl r index st clim Hr) as (made & Hrun).
  rewrite Hrun. simpl. unfold selected. rewrite Hhour.
  fold chunk_times. fold times_array.
  rewrite sel_one.
  destruct (group_indexer clim "dayofyear") as [q|e]; simpl;
    [|exists e; split; [reflexivity | discriminate]].
  destruct (run_query "dayofyear" q _) as [ps|e]; simpl;
    [|exists e; split; [reflexivity | discriminate]].
  destruct (check_positions q _) as [[]|e]; simpl;
    [|exists e; split; [reflexivity | discriminate]].
  unfold del_coord.
  rewrite sel_result_coords by discriminate. rewrite Hhour. simpl.
  exists (KeyError "hour"). split; reflexivity.
Qed.

(** The daily sample on 2017-01-01 and 2017-01-02: the days are found, and
    the deletion of [hour] raises. *)
Lemma daily_climatology_raises_witness :
  fst (select_climatology (mkSlice 0 2) 0%nat
         [ymdh 2017 1 0; ymdh 2017 2 0] [Samples.daily 3])
  = Raise (KeyError "hour").
Proof.
  destruct (daily_climatology_raises (mkSlice 0 2) 0%nat
              [ymdh 2017 1 0; ymdh 2017 2 0] [Samples.daily 3]
              (Samples.daily 3) eq_refl eq_refl) as (e & He & Hsel).
  rewrite He. f_equal. eapply Hsel. vm_compute. reflexivity.
Defined.

(** ** C6: a label missing from the climatology *)

Lemma index_of_None idx lab : index_of idx lab = None <-> ~ In lab idx.
Proof.
  induction idx as [|x idx IH]; simpl; [tauto|].
  destruct (Z.eqb_spec x lab) as [->|Hne].
  - split; [discriminate | tauto].
  - destruct (index_of idx lab); simpl.
    + split; [discriminate|]. intros H. exfalso. apply H. right.
      apply Decidable.not_not; [|intros H'; now apply IH in H'].
      destruct (in_dec Z.eq_dec lab idx); [now left | now right].
    + split; [|reflexivity]. intros _ [H|H]; [congruence|].
      now apply (proj1 IH).
Qed.

Lemma all_found_None (l : list (option nat)) :
  In None l -> all_found l = None.
Proof.
  induction l as [|[p|] l IH]; simpl; [tauto| |reflexivity].
  intros [H|H]; [discriminate|]. now rewrite IH.
Qed.

(** A label without position makes the lookup in an index raise. *)
Lemma index_sel_missing name idx labs lab :
  In lab labs -> ~ In lab idx ->
  index_sel name idx labs
  = Raise (if is_unique idx then KeyError name else InvalidIndexError).
Proof.
  intros Hin Hout. unfold index_sel. destruct (is_unique idx); [|reflexivity].
  rewrite all_found_None; [reflexivity|].
  apply in_map_iff. exists lab. split; [|exact Hin].
  now apply index_of_None.
Qed.

(** The lookup in an index either succeeds or raises one of its two
    exceptions. *)
Lemma index_sel_cases name idx labs :
  (exists ps, index_sel name idx labs = Ok ps)
  \/ index_sel name idx labs
     = Raise (if is_unique idx then KeyError name else InvalidIndexError).
Proof.
  unfold index_sel. destruct (is_unique idx); [|now right].
  destruct (all_found _); [left; eauto | now right].
Qed.

Lemma group_indexer_index ds name idx :
  xindex ds name = Some idx -> group_indexer ds name = Ok (ByLabel idx).
Proof. intros H. unfold group_indexer. now rewrite H. Qed.

(** An indexed coordinate is a coordinate. *)
Lemma xindex_coord ds name idx :
  xindex ds name = Some idx -> dict_mem (coords ds) name = true.
Proof.
  unfold xindex, dict_mem. destruct (dict_get (coords ds) name); [|discriminate].
  reflexivity.
Qed.

Lemma dict_get_In {V} (d : list (string * V)) k v :
  dict_get d k = Some v -> In (k, v) d.
Proof.
  induction d as [|[k' v'] d IH]; simpl; [discriminate|].
  destruct (String.eqb_spec k' k) as [->|_].
  - intros [= ->]. now left.
  - intros H. right. now apply IH.
Qed.

(** An index holds the labels of a coordinate of its name. *)
Lemma xindex_In ds name idx :
  xindex ds name = Some idx ->
  exists v, In (name, v) (coords ds) /\ idx = labels v.
Proof.
  unfold xindex. destruct (dict_get (coords ds) name) as [v|] eqn:E;
    [|discriminate].
  apply dict_get_In in E. destruct (dims v) as [|d [|]]; try discriminate.
  destruct (String.eqb d name); [|discriminate].
  intros [= <-]. eauto.
Qed.

(** The exceptions of the label lookup: [KeyError] for a label, a coordinate
    or a dimension that is not found, [InvalidIndexError] for an index with
    repeated labels. *)
Lemma group_indexer_cases ds name :
  (exists q, group_indexer ds name = Ok q)
  \/ group_indexer ds name = Raise (KeyError name).
Proof.
  unfold group_indexer. destruct (xindex ds name); [left; eauto|].
  destruct (dict_mem (coords ds) name); [now right|].
  destruct (dim_size ds name); [left; eauto | now right].
Qed.

(** C6: when some timestamp of the slice has a day of the year that is not a
    label of the [dayofyear] index, or an hour that is not a label of the
    [hour] index, [select_climatology] raises and yields nothing: no timestamp
    is dropped, no value substituted.  The exception is the one of the label
    lookup: a [KeyError], which is a [LookupError], when the indexes have no
    repeated label, and pandas' [InvalidIndexError] for an index with
    repeated labels. *)
Theorem missing_label_raises sl (r : ref) index (st : list Dataset) clim t :
  st !! r = Some clim ->
  In t (getslice index sl) ->
  (exists days, xindex clim "dayofyear" = Some days /\ ~ In (dayofyear t) days)
  \/ (exists hours, xindex clim "hour" = Some hours /\ ~ In (hour t) hours) ->
  exists e,
    fst (select_climatology sl r index st) = Raise e
    /\ ((exists k, e = KeyError k) \/ e = InvalidIndexError)
    /\ ((forall k idx, xindex clim k = Some idx -> is_unique idx = true) ->
        (exists k, e = KeyError k) /\ is_LookupError e = true).
Proof.
  intros Hr Ht Hmiss.
  destruct (select_climatology_run sl r index st clim Hr) as (made & Hrun).
  rewrite Hrun. simpl. unfold selected.
  set (chunk_times := getslice index sl) in *.
  assert (Hd : In (dayofyear t) (map dayofyear chunk_times)) by now apply in_map.
  assert (Hh : In (hour t) (map hour chunk_times)) by now apply in_map.
  assert (Hkey : forall k, exists e : exn,
             Raise (A := list (Key * Dataset)) (KeyError k) = Raise e
             /\ ((exists k, e = KeyError k) \/ e = InvalidIndexError)
             /\ ((forall k idx, xindex clim k = Some idx -> is_unique idx = true) ->
                 (exists k, e = KeyError k) /\ is_LookupError e = true)).
  { intros k. exists (KeyError k). split; [reflexivity|]. split; [eauto|].
    intros _. split; [eauto | reflexivity]. }
  assert (Hidx : forall k idx, xindex clim k = Some idx -> exists e : exn,
             Raise (A := list (Key * Dataset))
                   (if is_unique idx then KeyError k else InvalidIndexError)
             = Raise e
             /\ ((exists k, e = KeyError k) \/ e = InvalidIndexError)
             /\ ((forall k idx, xindex clim k = Some idx -> is_unique idx = true) ->
                 (exists k, e = KeyError k) /\ is_LookupError e = true)).
  { intros k idx Hx. destruct (is_unique idx) eqn:E; [apply Hkey|].
    exists InvalidIndexError. split; [reflexivity|]. split; [now right|].
    intros Hu. rewrite (Hu _ _ Hx) in E. discriminate. }
  destruct (dict_mem (coords clim) "hour") eqn:Ehour.
  - rewrite sel_two. simpl da_values.
    destruct (group_indexer_cases clim "dayofyear") as [[q1 Hq1]| ->];
      [rewrite Hq1 | apply Hkey]. simpl.
    destruct (group_indexer_cases clim "hour") as [[q2 Hq2]| ->];
      [rewrite Hq2 | apply Hkey]. simpl.
    destruct Hmiss as [(days & Hx & Hout)|(hours & Hx & Hout)].
    + rewrite (group_indexer_index _ _ _ Hx) in Hq1. injection Hq1 as <-.
      simpl. rewrite (index_sel_missing _ _ _ _ Hd Hout). simpl.
      now apply Hidx.
    + rewrite (group_indexer_index _ _ _ Hx) in Hq2. injection Hq2 as <-.
      destruct q1 as [days|]; simpl.
      * destruct (xindex clim "dayofyear") as [days'|] eqn:Hx1.
        -- rewrite (group_indexer_index _ _ _ Hx1) in Hq1. injection Hq1 as <-.
           destruct (index_sel_cases "dayofyear" days' (map dayofyear chunk_times))
             as [[ps ->]| ->]; simpl.
           ++ rewrite (index_sel_missing _ _ _ _ Hh Hout). simpl.
              now apply Hidx.
           ++ now apply Hidx.
        -- unfold group_indexer in Hq1. rewrite Hx1 in Hq1.
           destruct (dict_mem (coords clim) "dayofyear"); [discriminate|].
           destruct (dim_size clim "dayofyear"); discriminate.
      * rewrite (index_sel_missing _ _ _ _ Hh Hout). simpl. now apply Hidx.
  - destruct Hmiss as [(days & Hx & Hout)|(hours & Hx & Hout)].
    + rewrite sel_one. simpl da_values.
      rewrite (group_indexer_index _ _ _ Hx). simpl.
      rewrite (index_sel_missing _ _ _ _ Hd Hout). simpl. now apply Hidx.
    + apply xindex_coord in Hx. congruence.
Qed.

(** The six-hourly sample with the days 1 and 2, asked for 2017-01-03: day 3
    is not a label, the lookup raises [KeyError]. *)
Lemma missing_label_raises_witness :
  exists k,
    fst (select_climatology (mkSlice 0 2) 0%nat [ymdh 2017 2 0; ymdh 2017 3 0]
           [Samples.hourly 2])
    = Raise (KeyError k).
Proof.
  destruct (missing_label_raises (mkSlice 0 2) 0%nat
              [ymdh 2017 2 0; ymdh 2017 3 0]
              [Samples.hourly 2] (Samples.hourly 2) (ymdh 2017 3 0)
              eq_refl (or_intror (or_introl eq_refl)))
    as (e & He & _ & Hk).
  - left. exists [1; 2]. split; [reflexivity|].
    vm_compute. intros [H|[H|[]]]; discriminate H.
  - destruct Hk as [[k Hk] _].
    + intros k idx Hx. apply xindex_In in Hx as (v & Hin & ->).
      destruct Hin as [H|[H|[H|[]]]]; injection H as _ <-; reflexivity.
    + exists k. now rewrite He, Hk.
Defined.

(** The leap-day scenario: the six-hourly sample with the days 1 to 365
    fails on 2020-12-31, day 366. *)
Example leap_day_missing :
  fst (select_climatology (mkSlice 0 2) 0%nat Samples.leap_end
         [Samples.hourly 365])
  = Raise (KeyError "dayofyear").
Proof. vm_compute. reflexivity. Qed.

(** ** C7: one fragment per variable *)

Lemma all_found_Some (l : list (option nat)) :
  (forall o, In o l -> o <> None) -> exists ps, all_found l = Some ps.
Proof.
  induction l as [|[p|] l IH]; intros H; simpl.
  - eauto.
  - destruct IH as [ps ->]; [intros o Ho; apply H; now right|]. simpl. eauto.
  - exfalso. apply (H None); [now left | reflexivity].
Qed.

(** Labels that are all in a duplicate-free index all have a position. *)
Lemma index_sel_found name idx labs :
  is_unique idx = true ->
  (forall lab, In lab labs -> In lab idx) ->
  exists ps, index_sel name idx labs = Ok ps.
Proof.
  intros Hu Hall. unfold index_sel. rewrite Hu.
  destruct (all_found_Some (map (index_of idx) labs)) as [ps ->]; [|eauto].
  intros o Ho Hnone. subst o. apply in_map_iff in Ho as (lab & Hlab & Hin).
  apply index_of_None in Hlab. apply Hlab. now apply Hall.
Qed.

Lemma dict_mem_keys {V} (d : list (string * V)) k :
  dict_mem d k = str_in k (dict_keys d).
Proof.
  unfold dict_mem. destruct (dict_get d k) eqn:E.
  - symmetry. apply str_in_In. apply dict_get_In in E.
    unfold dict_keys. now apply (in_map fst) in E.
  - apply dict_get_None_keys in E.
    destruct (str_in k (dict_keys d)) eqn:E'; [|reflexivity].
    now apply str_in_In in E'.
Qed.

Lemma unique_names_app (l1 l2 : list string) :
  unique_names (l1 ++ l2) = true ->
  unique_names l2 = true /\ forall x, In x l2 -> ~ In x l1.
Proof.
  induction l1 as [|y l1 IH]; simpl; [intros H; split; [exact H | tauto]|].
  intros H. apply andb_true_iff in H as [Hy H].
  destruct (IH H) as [H2 Hdis]. split; [exact H2|].
  intros x Hx [->|Hin]; [|now apply (Hdis x)].
  apply negb_true_iff in Hy.
  assert (str_in x (l1 ++ l2) = true) by (apply str_in_In, in_or_app; now right).
  congruence.
Qed.

(** In a mapping, the entry found under a key is the entry of that key. *)
Lemma dict_get_unique {V} (d : list (string * V)) k v :
  unique_names (dict_keys d) = true -> In (k, v) d -> dict_get d k = Some v.
Proof.
  induction d as [|[k' v'] d IH]; simpl; [tauto|].
  intros Hu [Heq|Hin].
  - injection Heq as -> ->. now rewrite String.eqb_refl.
  - apply andb_true_iff in Hu as [Hk Hu].
    destruct (String.eqb_spec k' k) as [->|_]; [|now apply IH].
    apply negb_true_iff in Hk.
    assert (str_in k (dict_keys d) = true).
    { apply str_in_In. unfold dict_keys. now apply (in_map fst) in Hin. }
    congruence.
Qed.

Lemma time_is_free_spec ds name v :
  time_is_free ds = true -> In (name, v) (variables ds) ->
  name <> "time" /\ ~ In "time" (dims v).
Proof.
  unfold time_is_free. rewrite forallb_forall. intros H Hin.
  apply H in Hin. simpl in Hin. apply andb_true_iff in Hin as [H1 H2].
  apply negb_true_iff in H1, H2. split.
  - now apply String.eqb_neq.
  - intros Hin. apply str_in_In in Hin. congruence.
Qed.

Lemma time_is_free_no_variable ds :
  time_is_free ds = true -> dict_mem (variables ds) "time" = false.
Proof.
  intros H. unfold dict_mem.
  destruct (dict_get (variables ds) "time") as [v|] eqn:E; [|reflexivity].
  apply dict_get_In in E. now apply (time_is_free_spec _ _ _ H) in E as [E _].
Qed.

(** Mapping a function that answers through the key of each entry. *)
Lemma rmap_entries {A B C} (g : A -> result C) (h : A * B -> C)
    (l : list (A * B)) :
  (forall x, In x l -> g (fst x) = Ok (h x)) ->
  rmap g (map fst l) = Ok (map h l).
Proof.
  induction l as [|x l IH]; intros H; simpl; [reflexivity|].
  rewrite (H x) by now left. simpl.
  rewrite IH by (intros y Hy; apply H; now right). reflexivity.
Qed.

(** *** Dimensions after the pointwise selection *)

Lemma pointwise_dims_In keys new_dim seen ds d :
  In d (pointwise_dims keys new_dim seen ds) ->
  d = new_dim \/ (In d ds /\ str_in d keys = false).
Proof.
  revert seen. induction ds as [|d' ds IH]; intros seen; simpl; [tauto|].
  destruct (str_in d' keys) eqn:E.
  - destruct seen; simpl.
    + intros H. apply IH in H. tauto.
    + intros [H|H]; [now left|]. apply IH in H. tauto.
  - simpl. intros [->|H]; [right; tauto|]. apply IH in H. tauto.
Qed.

Lemma pointwise_dims_new keys new_dim ds :
  existsb (fun d => str_in d keys) ds = true ->
  In new_dim (pointwise_dims keys new_dim false ds).
Proof.
  induction ds as [|d ds IH]; simpl; [discriminate|].
  destruct (str_in d keys); simpl; [now left|].
  intros H. right. now apply IH.
Qed.

(** A variable with a periodic dimension gets the new dimension with the
    length of the indexers, and loses its periodic dimensions. *)
Lemma isel_points_var_touched pos new_dim n v :
  existsb (fun d => str_in d (dict_keys pos)) (dims v) = true ->
  var_size (isel_points_var pos new_dim n v) new_dim = Some n
  /\ (forall d, In d (dims (isel_points_var pos new_dim n v)) ->
        d = new_dim \/ (In d (dims v) /\ str_in d (dict_keys pos) = false)).
Proof.
  intros Ht. unfold isel_points_var.
  assert (Hcond : forallb (fun d => negb (dict_mem pos d)) (dims v) = false).
  { apply not_true_is_false. intros Hall. rewrite forallb_forall in Hall.
    apply existsb_exists in Ht as (d & Hd & Hk).
    apply Hall in Hd. rewrite dict_mem_keys, Hk in Hd. discriminate. }
  rewrite Hcond. split.
  - unfold var_size. simpl.
    destruct (dim_axis_In new_dim _ (pointwise_dims_new _ new_dim _ Ht))
      as [a Ha].
    rewrite Ha. apply dim_axis_lookup in Ha.
    rewrite list_lookup_fmap, Ha. simpl. now rewrite String.eqb_refl.
  - simpl. apply pointwise_dims_In.
Qed.

Lemma isel_points_var_untouched pos new_dim n v :
  existsb (fun d => str_in d (dict_keys pos)) (dims v) = false ->
  isel_points_var pos new_dim n v = v.
Proof.
  intros Ht. unfold isel_points_var.
  assert (Hcond : forallb (fun d => negb (dict_mem pos d)) (dims v) = true).
  { apply forallb_forall. intros d Hd. rewrite dict_mem_keys.
    destruct (str_in d (dict_keys pos)) eqn:E; [|reflexivity].
    assert (existsb (fun d => str_in d (dict_keys pos)) (dims v) = true)
      by (apply existsb_exists; eauto).
    congruence. }
  now rewrite Hcond.
Qed.

Lemma labels_var1d d l : labels (var1d d l) = l.
Proof.
  unfold labels, var1d. simpl.
  apply list_eq. intros i. rewrite list_lookup_fmap.
  destruct (Nat.lt_ge_cases i (List.length l)) as [Hlt|Hge].
  - rewrite lookup_seq_lt by exact Hlt. simpl.
    destruct (lookup_lt_is_Some_2 l i Hlt) as [x Hx]. now rewrite Hx.
  - rewrite lookup_seq_ge by exact Hge. simpl. symmetry.
    now apply lookup_ge_None.
Qed.

(** C7, as stated, fails: the sample has two variables, but on the last two
    days of the leap year 2020 with the days 1 to 365 the lookup raises and
    no pair is yielded. *)
Lemma lookup_miss_yields_no_fragment :
  let run := fst (select_climatology (mkSlice 0 2) 0%nat Samples.leap_end
                    [Samples.hourly 365]) in
  List.length (data_vars (Samples.hourly 365)) = 2%nat
  /\ List.length (getslice Samples.leap_end (mkSlice 0 2)) = 2%nat
  /\ run = Raise (KeyError "dayofyear")
  /\ ~ exists pairs, run = Ok pairs /\ List.length pairs = 2%nat.
Proof.
  intros run.
  assert (Hrun : run = Raise (KeyError "dayofyear"))
    by (vm_compute; reflexivity).
  split; [reflexivity|]. split; [reflexivity|]. split; [exact Hrun|].
  intros (pairs & Hok & _). rewrite Hrun in Hok. discriminate Hok.
Qed.

(** C7, amended: for a climatology with indexed [dayofyear] and [hour]
    coordinates without repeated labels, in which the name [time] is free,
    and a slice all of whose timestamps have their day and their hour among
    the labels, [select_climatology] yields one pair per data variable, in
    order.  The key of a pair holds the start of the slice as [time] offset
    and the name of the variable; the fragment has that variable alone and
    no [dayofyear] or [hour] coordinate.  For a variable with a periodic
    dimension, the fragment has the [time] dimension with one entry per
    timestamp of the slice, those timestamps as its [time] coordinate, and
    no periodic dimension left; a variable without periodic dimension is
    passed on as it is. *)
Theorem hourly_selection_splits_variables sl (r : ref) index
    (st : list Dataset) clim days hours :
  st !! r = Some clim ->
  valid_dataset clim = true ->
  time_is_free clim = true ->
  xindex clim "dayofyear" = Some days -> is_unique days = true ->
  xindex clim "hour" = Some hours -> is_unique hours = true ->
  (forall t, In t (getslice index sl) ->
     In (dayofyear t) days /\ In (hour t) hours) ->
  let chunk_times := getslice index sl in
  exists pairs,
    fst (select_climatology sl r index st) = Ok pairs
    /\ List.length pairs = List.length (data_vars clim)
    /\ forall (i : nat) name v,
         data_vars clim !! i = Some (name, v) ->
         exists fragment fv,
           pairs !! i
           = Some ({| offsets := [("time", slice_start sl)]; vars := [name] |},
                   fragment)
           /\ data_vars fragment = [(name, fv)]
           /\ dict_mem (coords fragment) "dayofyear" = false
           /\ dict_mem (coords fragment) "hour" = false
           /\ (touches ["dayofyear"; "hour"] v = true ->
               var_size fv "time" = Some (List.length chunk_times)
               /\ xindex fragment "time" = Some chunk_times
               /\ ~ In "dayofyear" (dims fv) /\ ~ In "hour" (dims fv))
           /\ (touches ["dayofyear"; "hour"] v = false -> fv = v).
Proof.
  intros Hr Hvalid Hfree Hxd Hud Hxh Huh Hall chunk_times.
  destruct (select_climatology_run sl r index st clim Hr) as (made & Hrun).
  rewrite Hrun. simpl. unfold selected. fold chunk_times.
  rewrite (xindex_coord _ _ _ Hxh).
  rewrite sel_two. simpl da_values.
  rewrite (group_indexer_index _ _ _ Hxd), (group_indexer_index _ _ _ Hxh).
  simpl.
  destruct (index_sel_found "dayofyear" days (map dayofyear chunk_times) Hud)
    as [p1 Hp1].
  { intros lab Hin. apply in_map_iff in Hin as (t & <- & Ht).
    now apply Hall. }
  destruct (index_sel_found "hour" hours (map hour chunk_times) Huh)
    as [p2 Hp2].
  { intros lab Hin. apply in_map_iff in Hin as (t & <- & Ht).
    now apply Hall. }
  rewrite Hp1. simpl. rewrite Hp2. simpl.
  set (pos := [("dayofyear", p1); ("hour", p2)]).
  set (f := isel_points_var pos "time" (List.length (map dayofyear chunk_times))).
  remember (sel_result clim pos (dt_dayofyear
              {| da_values := chunk_times; da_dim := "time";
                 da_coord := chunk_times |})) as chunk eqn:Hchunk.
  assert (Hcoords : coords chunk
                    = map_vars f (coords clim)
                      ++ [("time", var1d "time" chunk_times)]).
  { rewrite Hchunk. unfold sel_result. simpl.
    now rewrite (time_is_free_no_variable _ Hfree). }
  assert (Hdv : data_vars chunk = map_vars f (data_vars clim))
    by now rewrite Hchunk.
  assert (Hday : dict_mem (coords chunk) "dayofyear" = true).
  { rewrite Hchunk, sel_result_coords by discriminate.
    exact (xindex_coord _ _ _ Hxd). }
  assert (Hhour : dict_mem (dict_del (coords chunk) "dayofyear") "hour" = true).
  { unfold dict_mem. rewrite dict_get_del_ne by discriminate.
    fold (dict_mem (coords chunk) "hour").
    rewrite Hchunk, sel_result_coords by discriminate.
    exact (xindex_coord _ _ _ Hxh). }
  clear Hchunk.
  unfold del_coord at 1. rewrite Hday. cbn [rbind].
  unfold del_coord at 1. cbn [coords]. rewrite Hhour. cbn [rbind coords data_vars].
  set (coords2 := dict_del (dict_del (coords chunk) "dayofyear") "hour").
  rewrite Hdv.
  assert (Hvalid' : unique_names (dict_keys (coords clim)
                                  ++ dict_keys (data_vars clim)) = true).
  { unfold valid_dataset, variables, dict_keys in *.
    now rewrite map_app in Hvalid. }
  destruct (unique_names_app _ _ Hvalid') as [Hudv Hdisj].
  (* the fragment of one variable *)
  set (frag := fun nv : string * XVariable =>
         ({| offsets := [("time", slice_start sl)]; vars := [fst nv] |},
          {| coords := List.filter
                         (fun kv => subset_dims (dims (snd kv))
                                      (dims (f (snd nv)) ++ []))
                         coords2;
             data_vars := [(fst nv, f (snd nv))] |})).
  assert (Hc2 : forall name v, In (name, v) (data_vars clim) ->
                  dict_get coords2 name = None).
  { intros name v Hin. unfold coords2.
    destruct (String.eqb_spec "hour" name) as [<-|Hn1];
      [apply dict_get_del_eq|].
    rewrite dict_get_del_ne by exact Hn1.
    destruct (String.eqb_spec "dayofyear" name) as [<-|Hn2];
      [apply dict_get_del_eq|].
    rewrite dict_get_del_ne by exact Hn2.
    rewrite Hcoords, dict_get_app, dict_get_map_vars.
    assert (Hnc : dict_get (coords clim) name = None).
    { apply dict_get_None_keys. apply Hdisj.
      fold (dict_keys (data_vars clim)). unfold dict_keys.
      now apply (in_map fst) in Hin. }
    rewrite Hnc. cbv [fmap option_fmap option_map dict_get].
    assert (Hnt : name <> "time").
    { eapply time_is_free_spec; [exact Hfree|].
      unfold variables. apply in_or_app. right. exact Hin. }
    destruct (String.eqb_spec "time" name); [congruence | reflexivity]. }
  rewrite dict_keys_map_vars. unfold dict_keys.
  rewrite (rmap_entries _ frag).
  2: { intros [name v] Hin. simpl fst. unfold getitem_list. simpl rmap.
       unfold variables. simpl coords. simpl data_vars.
       rewrite dict_get_app. fold coords2. rewrite (Hc2 _ _ Hin).
       rewrite dict_get_map_vars.
       rewrite (dict_get_unique _ _ _ Hudv Hin). simpl.
       unfold dict_mem. rewrite (Hc2 _ _ Hin). reflexivity. }
  eexists. split; [reflexivity|]. split; [now rewrite length_map|].
  intros i name v Hi.
  exists (snd (frag (name, v))), (f v).
  split; [now rewrite list_lookup_fmap, Hi|].
  split; [reflexivity|].
  assert (Hnod : dict_get coords2 "dayofyear" = None).
  { unfold coords2. rewrite dict_get_del_ne by discriminate.
    apply dict_get_del_eq. }
  assert (Hnoh : dict_get coords2 "hour" = None)
    by apply dict_get_del_eq.
  split; [unfold dict_mem; simpl; now rewrite dict_get_filter_None|].
  split; [unfold dict_mem; simpl; now rewrite dict_get_filter_None|].
  split.
  - intros Ht.
    assert (Ht' : existsb (fun d => str_in d (dict_keys pos)) (dims v) = true)
      by exact Ht.
    destruct (isel_points_var_touched pos "time"
                (List.length (map dayofyear chunk_times)) v Ht')
      as [Hsize Hdims].
    fold f in Hsize, Hdims. rewrite length_map in Hsize.
    split; [exact Hsize|].
    assert (Hin_time : In "time" (dims (f v))).
    { unfold var_size in Hsize.
      destruct (dim_axis "time" (dims (f v))) as [a|] eqn:Ea; [|discriminate].
      apply dim_axis_lookup in Ea. apply list_elem_of_In.
      eapply list_elem_of_lookup_2. exact Ea. }
    split.
    + unfold xindex. simpl coords.
      rewrite (dict_get_filter_Some _ _ _ (var1d "time" chunk_times)).
      * simpl. now rewrite labels_var1d.
      * unfold coords2. rewrite !dict_get_del_ne by discriminate.
        rewrite Hcoords, dict_get_app, dict_get_map_vars.
        assert (Hnt : dict_get (coords clim) "time" = None).
        { pose proof (time_is_free_no_variable _ Hfree) as Hno.
          unfold dict_mem, variables in Hno. rewrite dict_get_app in Hno.
          now destruct (dict_get (coords clim) "time"). }
        rewrite Hnt. reflexivity.
      * simpl. rewrite andb_true_r. apply str_in_In.
        apply in_or_app. now left.
    + split; intros Hin; apply Hdims in Hin as [Heq|[_ Hk]]; discriminate.
  - intros Ht. now apply isel_points_var_untouched.
Qed.

(** The hour-aware example: the six-hourly sample on the four timestamps of
    2017-01-01 yields one pair for [t2m] and one for [z500]. *)
Lemma hourly_selection_splits_variables_witness :
  exists pairs,
    fst (select_climatology (mkSlice 0 4) 0%nat Samples.four_times
           [Samples.hourly 2]) = Ok pairs
    /\ List.length pairs = 2%nat.
Proof.
  destruct (hourly_selection_splits_variables (mkSlice 0 4) 0%nat
              Samples.four_times [Samples.hourly 2] (Samples.hourly 2)
              [1; 2] [0; 6; 12; 18]
              eq_refl eq_refl eq_refl eq_refl eq_refl eq_refl eq_refl)
    as (pairs & Hrun & Hlen & _).
  - intros t Ht. vm_compute in Ht.
    destruct Ht as [<-|[<-|[<-|[<-|[]]]]]; vm_compute; tauto.
  - exists pairs. split; [exact Hrun | exact Hlen].
Defined.

(** With day 366 among the labels the last day of a leap year resolves. *)
Example leap_day_present :
  exists pairs,
    fst (select_climatology (mkSlice 0 2) 0%nat Samples.leap_end
           [Samples.hourly 366]) = Ok pairs
    /\ map (fun kd : Key * Dataset => vars (fst kd)) pairs = [["t2m"]; ["z500"]].
Proof. eexists. split; [vm_compute; reflexivity | reflexivity]. Qed.

(** * Further properties of the script *)

(** ** The pipeline of [main] *)

(** Computations that return a value of their own and only add objects to
    the store do so one after another. *)
Lemma mmap_run {A B} (f : A -> M B) (g : A -> result B) (r : ref) clim
    (items : list A) (st : list Dataset) :
  (forall a st', st' !! r = Some clim ->
     exists made, f a st' = (g a, st' ++ made)) ->
  st !! r = Some clim ->
  exists made, mmap f items st = (rmap g items, st ++ made).
Proof.
  intros Hf. revert st. induction items as [|a items IH]; intros st Hr.
  - exists []. simpl. unfold ret. now rewrite app_nil_r.
  - simpl mmap. simpl rmap. unfold bind at 1.
    destruct (Hf a st Hr) as (made1 & ->).
    destruct (g a) as [out|e]; simpl; [|now exists made1].
    assert (Hr' : (st ++ made1) !! r = Some clim).
    { rewrite lookup_app_l; [exact Hr | now apply lookup_lt_Some in Hr]. }
    destruct (IH _ Hr') as (made2 & Hrest).
    unfold bind at 1. rewrite Hrest.
    exists (made1 ++ made2). rewrite app_assoc.
    destruct (rmap g items); reflexivity.
Qed.

(** One work item: the run returns [processed] and only adds objects to the
    store. *)
Lemma process_run p s (r : ref) clim start (st : list Dataset) :
  st !! r = Some clim ->
  exists made, process p s r start st = (processed p s clim start, st ++ made).
Proof.
  intros Hr. unfold process, processed. unfold bind at 1.
  destruct (select_climatology_run (slice_of (time_chunk_size s) start) r
              (times s) st clim Hr) as (made & ->).
  exists made.
  destruct (selected _ clim (times s)) as [pairs|e]; simpl; [|reflexivity].
  unfold bind, lift, ret.
  destruct (rmap _ pairs); reflexivity.
Qed.

(** [main] is its setup, the setup of the runner and of the destination, and
    the work items processed in the order of the runner; the store gets the
    climatology and the datasets made on the way. *)
Lemma main_run p flags clim chunks (st : list Dataset) :
  exists made,
    main p flags (clim, chunks) st
    = (let? s := main_setup flags clim chunks in
       let? _ := runner_setup p in
       let? _ := zarr_setup p (template s) (output_chunks s) in
       let? outs := report p (rmap (processed p s clim)
                                   (schedule p (work_items s))) in
       Ok (s, concat outs),
       st ++ clim :: made).
Proof.
  unfold main, bind at 1, new. simpl fst. simpl snd.
  unfold bind at 1, load. rewrite lookup_new.
  unfold bind at 1, lift.
  destruct (main_setup flags clim chunks) as [s|e]; simpl rbind;
    [|now exists []].
  unfold bind at 1.
  destruct (runner_setup p) as [[]|e]; simpl rbind; [|now exists []].
  unfold bind at 1.
  destruct (zarr_setup p (template s) (output_chunks s)) as [[]|e];
    simpl rbind; [|now exists []].
  destruct (mmap_run (process p s (List.length st)) (processed p s clim)
              (List.length st) clim (schedule p (work_items s))
              (st ++ [clim])) as (made & Hrun).
  { intros start st' Hr. now apply process_run. }
  { apply lookup_new. }
  unfold bind, reported. rewrite Hrun. simpl fst. simpl snd. exists made.
  rewrite <- app_assoc. simpl.
  destruct (rmap _ (schedule p (work_items s))); reflexivity.
Qed.

Lemma rmap_In_Raise {A B} (g : A -> result B) (l : list A) x e :
  In x l -> g x = Raise e -> exists e', rmap g l = Raise e'.
Proof.
  intros Hin Hx. induction l as [|a l IH]; simpl; [destruct Hin|].
  destruct (g a) as [b|e'] eqn:Ea; simpl; [|eauto].
  destruct Hin as [->|Hin]; [congruence|].
  destruct (IH Hin) as [e' ->]. simpl. eauto.
Qed.

(** X3: the outcome of [main].  When the setup completes: if the runner is
    not found, or the destination refuses the template, [main] raises what
    they raised; if the selection of some work item raises, [main] raises,
    in whatever order the runner takes the work items; and when [main]
    returns, the destination has accepted the template, every work item has
    been selected, and every pair selected was accepted by the destination
    and is among the pairs returned.  Whatever the outcome, the objects that
    were in the store are unchanged, and so is the climatology that [main]
    put there. *)
Theorem main_outcome p flags clim chunks s (st : list Dataset) :
  main_setup flags clim chunks = Ok s ->
  let select := fun start =>
    selected (slice_of (time_chunk_size s) start) clim (times s) in
  let write := fun kd : Key * Dataset =>
    zarr_write p (template s) (output_chunks s) (fst kd) (snd kd) in
  (forall e, runner_setup p = Raise e ->
     fst (main p flags (clim, chunks) st) = Raise e)
  /\ (forall e, runner_setup p = Ok tt ->
        zarr_setup p (template s) (output_chunks s) = Raise e ->
        fst (main p flags (clim, chunks) st) = Raise e)
  /\ (forall start e, In start (work_items s) -> select start = Raise e ->
        exists e', fst (main p flags (clim, chunks) st) = Raise e')
  /\ (forall s' pairs,
        fst (main p flags (clim, chunks) st) = Ok (s', pairs) ->
        s' = s
        /\ runner_setup p = Ok tt
        /\ zarr_setup p (template s) (output_chunks s) = Ok tt
        /\ forall start, In start (work_items s) ->
             exists out, select start = Ok out
                         /\ forall kd, In kd out ->
                              In kd pairs /\ write kd = Ok tt)
  /\ snd (main p flags (clim, chunks) st) !! List.length st = Some clim
  /\ (forall a ds, st !! a = Some ds ->
        snd (main p flags (clim, chunks) st) !! a = Some ds).
Proof.
  intros Hs select write.
  destruct (main_run p flags clim chunks st) as (made & Hrun).
  rewrite Hrun, Hs. simpl fst. simpl snd. cbn [rbind].
  split; [intros e ->; reflexivity|].
  split; [intros e -> ->; reflexivity|]. split; [|split; [|split]].
  - intros start e Hin Hstart.
    destruct (runner_setup p) as [[]|e0]; cbn [rbind]; [|eauto].
    destruct (zarr_setup p (template s) (output_chunks s)) as [[]|e0];
      cbn [rbind]; [|eauto].
    apply (Permutation_in _ (Permutation_sym (schedule_permutes p _))) in Hin.
    destruct (rmap_In_Raise (processed p s clim) _ start e Hin) as [e' ->].
    + unfold processed. fold (select start). now rewrite Hstart.
    + simpl. eauto.
  - intros s' pairs H.
    apply rbind_Ok in H as ([] & Hr & H).
    apply rbind_Ok in H as ([] & Hz & H).
    destruct (rmap (processed p s clim) (schedule p (work_items s)))
      as [outs|e] eqn:Houts; simpl in H; [|discriminate].
    injection H as <- <-. split; [reflexivity|]. split; [exact Hr|].
    split; [exact Hz|].
    intros start Hin.
    apply (Permutation_in _ (Permutation_sym (schedule_permutes p _))) in Hin.
    destruct (rmap_In _ _ _ _ Houts Hin) as (out & Hout & Hmem).
    unfold processed in Hout. fold (select start) in Hout.
    apply rbind_Ok in Hout as (out' & Hsel & Hout).
    apply rbind_Ok in Hout as (us & Hus & Hout). injection Hout as ->.
    exists out. split; [exact Hsel|]. intros kd Hkd. split.
    + apply in_concat. eauto.
    + destruct (rmap_In _ _ _ _ Hus Hkd) as ([] & Hw & _). exact Hw.
  - rewrite lookup_app_r by lia. now rewrite Nat.sub_diag.
  - intros a ds Ha. rewrite lookup_app_l; [exact Ha|].
    now apply lookup_lt_Some in Ha.
Qed.

(** The six-hourly sample over 2017-01-01 in chunks of two timestamps, the
    work items taken last to first: both are selected, and their four pairs
    are written. *)
Lemma main_outcome_witness :
  exists s pairs,
    fst (main Samples.backwards
              {| TIME_START := ymdh 2017 1 0; TIME_STOP := ymdh 2017 1 18;
                 TIME_CHUNK_SIZE := Some 2 |}
              (Samples.hourly 2, Samples.hourly_chunks) []) = Ok (s, pairs)
    /\ work_items s = [0; 2]
    /\ forall start, In start (work_items s) ->
         exists out,
           selected (slice_of (time_chunk_size s) start) (Samples.hourly 2)
                    (times s) = Ok out
           /\ forall kd, In kd out -> In kd pairs.
Proof.
  eassert (Hs : main_setup {| TIME_START := ymdh 2017 1 0;
                              TIME_STOP := ymdh 2017 1 18;
                              TIME_CHUNK_SIZE := Some 2 |}
                           (Samples.hourly 2) Samples.hourly_chunks = Ok _)
    by (vm_compute; reflexivity).
  eassert (Hmain : fst (main Samples.backwards
                          {| TIME_START := ymdh 2017 1 0;
                             TIME_STOP := ymdh 2017 1 18;
                             TIME_CHUNK_SIZE := Some 2 |}
                          (Samples.hourly 2, Samples.hourly_chunks) [])
                   = Ok (_, _)) by (vm_compute; reflexivity).
  pose proof (main_outcome Samples.backwards _ _ _ _ [] Hs)
    as (_ & _ & _ & Hret & _).
  destruct (Hret _ _ Hmain) as (_ & _ & _ & Hall).
  eexists _, _. split; [exact Hmain|]. split; [reflexivity|].
  intros start Hin. destruct (Hall start Hin) as (out & Hout & Hkd).
  exists out. split; [exact Hout|]. intros kd Hk. now apply Hkd.
Defined.

(** ** Daily climatologies *)




(** ** The work items and the time index *)

(** X10: every work item of a completed setup with a positive chunk size is
    a multiple of the chunk size and a position of the time index, and its
    slice is not empty: it begins with the timestamp at that position. *)
Theorem work_items_valid flags clim chunks s :
  main_setup flags clim chunks = Ok s ->
  0 < time_chunk_size s ->
  forall start, In start (work_items s) ->
    0 <= start < Z.of_nat (List.length (times s))
    /\ (time_chunk_size s | start)
    /\ exists t, times s !! Z.to_nat start = Some t
                 /\ getslice (times s) (slice_of (time_chunk_size s) start) !! 0%nat
                    = Some t.
Proof.
  intros Hs Hc start Hin.
  pose proof (main_setup_bounds _ _ _ _ Hs) as (_ & _ & Hshort).
  assert (H53 : 2 ^ 24 < 2 ^ 53) by reflexivity.
  apply main_setup_Ok in Hs as (hd & t0 & _ & _ & _ & _ & _ & H6 & _ & H8).
  destruct (ceil_div_pos (Z.of_nat (List.length (times s))) _
              ltac:(lia) Hc) as (count & Hcount & Hk0 & Hlo & _).
  rewrite Hcount in H6. injection H6 as H6.
  rewrite H8 in Hin. unfold create_work_items, range in Hin.
  rewrite map_map in Hin. apply in_map_iff in Hin as (i & <- & Hi).
  apply in_seq in Hi.
  assert (Hk : 0 < count) by lia.
  specialize (Hlo Hk).
  assert (Hlt : Z.of_nat i * time_chunk_size s
                < Z.of_nat (List.length (times s))) by nia.
  split; [nia|]. split; [now exists (Z.of_nat i)|].
  destruct (lookup_lt_is_Some_2 (times s)
              (Z.to_nat (Z.of_nat i * time_chunk_size s))) as [t Ht]; [lia|].
  exists t. split; [exact Ht|].
  rewrite getslice_work_item by exact Hc.
  rewrite lookup_take_lt by lia. rewrite lookup_drop.
  rewrite <- Ht. f_equal. nia.
Qed.

(** The offsets 0 and 2 of the sample setup are positions of its four
    timestamps. *)
Lemma work_items_valid_witness :
  exists s,
    main_setup {| TIME_START := ymdh 2017 1 0; TIME_STOP := ymdh 2017 1 18;
                  TIME_CHUNK_SIZE := Some 2 |}
               (Samples.hourly 2) Samples.hourly_chunks = Ok s
    /\ work_items s = [0; 2]
    /\ forall start, In start (work_items s) ->
         0 <= start < Z.of_nat (List.length (times s)).
Proof.
  eassert (Hs : main_setup {| TIME_START := ymdh 2017 1 0;
                              TIME_STOP := ymdh 2017 1 18;
                              TIME_CHUNK_SIZE := Some 2 |}
                           (Samples.hourly 2) Samples.hourly_chunks = Ok _)
    by (vm_compute; reflexivity).
  eexists. split; [exact Hs|]. split; [reflexivity|].
  intros start Hin.
  exact (proj1 (work_items_valid _ _ _ _ Hs eq_refl start Hin)).
Defined.

(** X8: for a positive period step, every timestamp of the time index lies
    between [time_start] and [time_stop]; when [time_start <= time_stop] the
    index begins with [time_start] and its last timestamp is less than one
    period step before [time_stop]. *)
Theorem time_index_within_range flags clim chunks hd tds :
  hour_delta_time_dims clim = Ok (hd, tds) ->
  0 < hd ->
  let start := TIME_START flags in
  let stop := TIME_STOP flags in
  let period_step := hd * NS_PER_HOUR in
  exists index,
    date_range start stop period_step = Ok index
    /\ (forall t, In t index -> start <= t <= stop)
    /\ (start <= stop ->
        index !! 0%nat = Some start
        /\ exists t, last index = Some t /\ stop - period_step < t <= stop)
    /\ (forall s, main_setup flags clim chunks = Ok s -> times s = index).
Proof.
  intros Hstep Hhd start stop period_step.
  assert (Hs : 0 < period_step) by (unfold period_step, NS_PER_HOUR; lia).
  set (q := (stop - start) `div` period_step).
  pose proof (Z.div_mod (stop - start) period_step) as Hdm.
  pose proof (Z.mod_pos_bound (stop - start) period_step Hs) as Hmod.
  fold q in Hdm.
  eexists. split; [apply date_range_pos; exact Hs|]. fold q.
  split; [|split].
  - intros t Hin. apply in_map_iff in Hin as (i & <- & Hi).
    apply in_seq in Hi. nia.
  - intros Hle.
    assert (Hq : 0 <= q) by (apply Z.div_pos; lia).
    replace (Z.to_nat (q + 1)) with (S (Z.to_nat q)) by lia.
    split; [simpl; f_equal; lia|].
    exists (start + q * period_step).
    split; [|nia].
    rewrite seq_S, map_app. cbn [map]. rewrite last_snoc.
    do 2 f_equal. lia.
  - intros s Hsetup.
    apply main_setup_Ok in Hsetup as (hd' & t0 & H1 & H2 & _).
    rewrite Hstep in H1. injection H1 as <- _.
    fold start stop period_step in H2.
    rewrite date_range_pos in H2 by exact Hs. now injection H2.
Qed.

(** From 2017-01-01T00 to 2017-01-01T20 every six hours: the index ends at
    18:00, within the range. *)
Lemma time_index_within_range_witness :
  exists index,
    date_range (ymdh 2017 1 0) (ymdh 2017 1 20) (6 * NS_PER_HOUR) = Ok index
    /\ forall t, In t index -> ymdh 2017 1 0 <= t <= ymdh 2017 1 20.
Proof.
  destruct (time_index_within_range
              {| TIME_START := ymdh 2017 1 0; TIME_STOP := ymdh 2017 1 20;
                 TIME_CHUNK_SIZE := None |}
              (Samples.hourly 2) Samples.hourly_chunks 6 ["hour"; "dayofyear"]
              eq_refl eq_refl) as (index & H1 & H2 & _).
  exists index. split; [exact H1 | exact H2].
Defined.

(** The hour of day advances with the period step. *)
Lemma hour_shift t (i hd : Z) :
  hour (t + i * (hd * NS_PER_HOUR)) = (hour t + i * hd) `mod` 24.
Proof.
  unfold hour.
  replace (t + i * (hd * NS_PER_HOUR)) with (t + (i * hd) * NS_PER_HOUR) by lia.
  rewrite Z.div_add by (unfold NS_PER_HOUR; lia).
  now rewrite Zplus_mod_idemp_l.
Qed.

(** X9: in the time index, the hour of day of entry [i] is the hour of
    [time_start] advanced by [i] period steps, modulo 24; with the daily step
    of 24 hours every entry has the hour of day of [time_start]. *)
Theorem time_index_hours flags clim chunks hd tds s :
  hour_delta_time_dims clim = Ok (hd, tds) ->
  0 < hd ->
  main_setup flags clim chunks = Ok s ->
  forall (i : nat) t, times s !! i = Some t ->
    hour t = (hour (TIME_START flags) + Z.of_nat i * hd) `mod` 24
    /\ (hd = 24 -> hour t = hour (TIME_START flags)).
Proof.
  intros Hstep Hhd Hs i t Ht.
  apply main_setup_Ok in Hs as (hd' & t0 & H1 & H2 & _).
  rewrite Hstep in H1. injection H1 as <- _.
  rewrite date_range_pos in H2 by (unfold NS_PER_HOUR; lia).
  injection H2 as H2. rewrite <- H2 in Ht.
  rewrite list_lookup_fmap in Ht.
  destruct (seq _ _ !! i) as [j|] eqn:Ej; [|discriminate].
  apply lookup_seq in Ej as [-> _]. simpl in Ht. injection Ht as <-.
  rewrite hour_shift. split; [reflexivity|].
  intros ->. rewrite Z_mod_plus_full. unfold hour. apply Z.mod_mod. lia.
Qed.

(** The third timestamp of a six-hourly index that starts at midnight is at
    12:00. *)
Lemma time_index_hours_witness :
  exists s t,
    main_setup {| TIME_START := ymdh 2017 1 0; TIME_STOP := ymdh 2017 1 18;
                  TIME_CHUNK_SIZE := Some 2 |}
               (Samples.hourly 2) Samples.hourly_chunks = Ok s
    /\ times s !! 2%nat = Some t
    /\ hour t = 12.
Proof.
  eassert (Hs : main_setup {| TIME_START := ymdh 2017 1 0;
                              TIME_STOP := ymdh 2017 1 18;
                              TIME_CHUNK_SIZE := Some 2 |}
                           (Samples.hourly 2) Samples.hourly_chunks = Ok _)
    by (vm_compute; reflexivity).
  eexists _, _. split; [exact Hs|]. split; [reflexivity|].
  exact (proj1 (time_index_hours _ (Samples.hourly 2) _ 6 ["hour"; "dayofyear"]
                  _ eq_refl eq_refl Hs 2%nat _ eq_refl)).
Defined.

(** ** The keys of the fragments *)

Lemma rmap_keys {A B C} (g : A -> result B) (k : A -> C) (l : list A)
    (pairs : list (C * B)) :
  rmap (fun a => let? b := g a in Ok (k a, b)) l = Ok pairs ->
  map fst pairs = map k l.
Proof.
  revert pairs. induction l as [|a l IH]; intros pairs; simpl.
  - now intros [= <-].
  - intros H. apply rbind_Ok in H as (kb & Hkb & H).
    apply rbind_Ok in Hkb as (b & _ & Hkb). injection Hkb as <-.
    apply rbind_Ok in H as (rest & Hrest & H). injection H as <-.
    simpl. now rewrite (IH _ Hrest).
Qed.

Lemma del_coord_data_vars ds name ds' :
  del_coord ds name = Ok ds' -> data_vars ds' = data_vars ds.
Proof.
  unfold del_coord. destruct (dict_mem (coords ds) name); [|discriminate].
  now intros [= <-].
Qed.

(** [sel] keeps the names of the data variables, in order. *)
Lemma sel_data_var_names ds indexers chunk :
  sel ds indexers = Ok chunk ->
  dict_keys (data_vars chunk) = dict_keys (data_vars ds).
Proof.
  unfold sel. destruct indexers as [|[k a0] rest]; [now intros [= <-]|].
  intros H. apply rbind_Ok in H as (qs & _ & H).
  apply rbind_Ok in H as (pos & _ & H).
  apply rbind_Ok in H as (checked & _ & H). injection H as <-.
  apply dict_keys_map_vars.
Qed.

(** What a successful selection yields has one key per data variable of the
    climatology, in order. *)
Lemma selected_keys sl clim index pairs :
  selected sl clim index = Ok pairs ->
  map fst pairs
  = map (fun name => {| offsets := [("time", slice_start sl)];
                        vars := [name] |})
        (dict_keys (data_vars clim)).
Proof.
  unfold selected. intros H. apply rbind_Ok in H as (chunk & Hchunk & H).
  apply rmap_keys in H. rewrite H. f_equal.
  destruct (dict_mem (coords clim) "hour").
  - apply rbind_Ok in Hchunk as (c0 & Hsel & Hchunk).
    apply rbind_Ok in Hchunk as (c1 & Hd1 & Hd2).
    apply del_coord_data_vars in Hd1, Hd2. apply sel_data_var_names in Hsel.
    now rewrite Hd2, Hd1.
  - apply rbind_Ok in Hchunk as (c0 & Hsel & Hd1).
    apply del_coord_data_vars in Hd1. apply sel_data_var_names in Hsel.
    now rewrite Hd1.
Qed.

Lemma rmap_Forall2 {A B} (g : A -> result B) (l : list A) (l' : list B) :
  rmap g l = Ok l' -> Forall2 (fun a b => g a = Ok b) l l'.
Proof.
  revert l'. induction l as [|a l IH]; intros l'; simpl.
  - intros [= <-]. constructor.
  - intros H. apply rbind_Ok in H as (b & Hb & H).
    apply rbind_Ok in H as (bs & Hbs & H). injection H as <-.
    constructor; [exact Hb | now apply IH].
Qed.

Lemma unique_names_NoDup (l : list string) :
  unique_names l = true -> NoDup l.
Proof.
  induction l as [|x l IH]; simpl; [constructor|].
  intros H. apply andb_true_iff in H as [Hx Hl].
  apply NoDup_cons_2; [|now apply IH].
  intros Hin. apply list_elem_of_In, str_in_In in Hin.
  rewrite Hin in Hx. discriminate.
Qed.

(** Keys made of distinct offsets and distinct names are distinct. *)
Lemma keys_NoDup (starts : list Z) (names : list string) :
  NoDup starts -> NoDup names ->
  NoDup (concat (map (fun start =>
                        map (fun name => {| offsets := [("time", start)];
                                            vars := [name] |}) names)
                     starts)).
Proof.
  intros Hs Hn. induction Hs as [|start starts Hnotin Hs IH]; simpl;
    [constructor|].
  apply NoDup_app. split; [|split; [|exact IH]].
  - apply NoDup_fmap_2; [|exact Hn]. intros a b [= ->]. reflexivity.
  - intros key Hin Hin'.
    apply list_elem_of_fmap in Hin as (name & -> & _).
    apply list_elem_of_In, in_concat in Hin' as (l & Hl & Hin').
    apply in_map_iff in Hl as (start' & <- & Hstart').
    apply in_map_iff in Hin' as (name' & [= <- _] & _).
    apply Hnotin. now apply list_elem_of_In.
Qed.

(** The pairs that a work item gives to the destination are the ones
    selected for it. *)
Lemma processed_selected p s clim start out :
  processed p s clim start = Ok out ->
  selected (slice_of (time_chunk_size s) start) clim (times s) = Ok out.
Proof.
  unfold processed. intros H. apply rbind_Ok in H as (out' & Hsel & H).
  apply rbind_Ok in H as (us & _ & H). now injection H as ->.
Qed.

(** X5: the keys of a run.  When [main] returns, the keys of the pairs it
    has written are, up to the order in which the runner took the work
    items, the pairs of a work item and a data variable of the climatology.
    So there are (number of work items) times (number of variables) pairs,
    and for a positive chunk size no key occurs twice. *)
Theorem main_keys p flags clim chunks s pairs (st : list Dataset) :
  valid_dataset clim = true ->
  fst (main p flags (clim, chunks) st) = Ok (s, pairs) ->
  let names := dict_keys (data_vars clim) in
  main_setup flags clim chunks = Ok s
  /\ Permutation (map fst pairs)
       (concat (map (fun start =>
                       map (fun name => {| offsets := [("time", start)];
                                           vars := [name] |}) names)
                    (work_items s)))
  /\ List.length pairs
     = (List.length (work_items s) * List.length names)%nat
  /\ (0 < time_chunk_size s -> NoDup (map fst pairs)).
Proof.
  intros Hvalid Hmain names.
  destruct (main_run p flags clim chunks st) as (made & Hrun).
  rewrite Hrun in Hmain. simpl in Hmain.
  apply rbind_Ok in Hmain as (s' & Hs & Hmain).
  apply rbind_Ok in Hmain as ([] & _ & Hmain).
  apply rbind_Ok in Hmain as ([] & _ & Hmain).
  destruct (rmap (processed p s' clim) (schedule p (work_items s')))
    as [outs|e] eqn:Houts; simpl in Hmain; [|discriminate].
  injection Hmain as -> <-.
  split; [exact Hs|].
  set (keys := fun start : Z =>
                 map (fun name => {| offsets := [("time", start)];
                                     vars := [name] |}) names).
  assert (Hkeys : map fst (concat outs)
                  = concat (map keys (schedule p (work_items s)))).
  { apply rmap_Forall2 in Houts. clear Hrun Hs.
    induction Houts as [|start out items outs Hout _ IH]; [reflexivity|].
    simpl. rewrite map_app, IH. f_equal.
    apply processed_selected in Hout. now apply selected_keys in Hout. }
  assert (Hperm : Permutation (map fst (concat outs))
                              (concat (map keys (work_items s)))).
  { rewrite Hkeys, <- !flat_map_concat_map.
    apply Permutation_flat_map, schedule_permutes. }
  split; [exact Hperm|]. split.
  - rewrite <- (length_map fst), (Permutation_length Hperm).
    clear. induction (work_items s) as [|start items IH]; [reflexivity|].
    simpl. unfold keys at 1. rewrite length_app, length_map, IH. reflexivity.
  - intros Hc. rewrite Hperm. apply keys_NoDup.
    + apply main_setup_Ok in Hs as (_ & _ & _ & _ & _ & _ & _ & _ & _ & H8).
      rewrite H8. unfold create_work_items, range. rewrite map_map.
      apply NoDup_fmap_2; [|apply NoDup_seq].
      intros i j Hij. nia.
    + apply unique_names_NoDup.
      unfold valid_dataset, variables, dict_keys in Hvalid.
      rewrite map_app in Hvalid.
      now apply unique_names_app in Hvalid as [Hu _].
Qed.

(** The keys of the sample run when the work items are taken last to first:
    offset 2 before offset 0, and no key twice. *)
Lemma main_keys_witness :
  exists s pairs,
    fst (main Samples.backwards
              {| TIME_START := ymdh 2017 1 0; TIME_STOP := ymdh 2017 1 18;
                 TIME_CHUNK_SIZE := Some 2 |}
              (Samples.hourly 2, Samples.hourly_chunks) []) = Ok (s, pairs)
    /\ map (fun kd : Key * Dataset => (offsets (fst kd), vars (fst kd))) pairs
       = [([("time", 2)], ["t2m"]); ([("time", 2)], ["z500"]);
          ([("time", 0)], ["t2m"]); ([("time", 0)], ["z500"])]
    /\ NoDup (map fst pairs).
Proof.
  eassert (Hmain : fst (main Samples.backwards
                             {| TIME_START := ymdh 2017 1 0;
                                TIME_STOP := ymdh 2017 1 18;
                                TIME_CHUNK_SIZE := Some 2 |}
                             (Samples.hourly 2, Samples.hourly_chunks) [])
                   = Ok (_, _)) by (vm_compute; reflexivity).
  pose proof (main_keys _ _ (Samples.hourly 2) _ _ _ [] eq_refl Hmain)
    as (_ & _ & _ & Hnodup).
  eexists _, _. split; [exact Hmain|]. split; [reflexivity|].
  apply Hnodup. reflexivity.
Defined.

(** ** The contents of the fragments *)

Lemma all_found_lookup (l : list (option nat)) ps (i : nat) o :
  all_found l = Some ps -> l !! i = Some o ->
  exists p, o = Some p /\ ps !! i = Some p.
Proof.
  revert ps i. induction l as [|[p|] l IH]; intros ps i; simpl;
    [intros _ H; discriminate H| |discriminate].
  destruct (all_found l) as [ps'|]; simpl; [|discriminate].
  intros [= <-]. destruct i as [|i]; simpl.
  - intros [= <-]. eauto.
  - now apply IH.
Qed.

(** The positions found by the lookup are those of the labels. *)
Lemma index_sel_positions name idx labs ps (i : nat) lab :
  index_sel name idx labs = Ok ps -> labs !! i = Some lab ->
  exists p, ps !! i = Some p /\ index_of idx lab = Some p.
Proof.
  unfold index_sel. destruct (is_unique idx); [|discriminate].
  destruct (all_found _) as [ps'|] eqn:E; [|discriminate].
  intros [= <-] Hlab.
  destruct (all_found_lookup _ _ i (index_of idx lab) E) as (p & Hp & Hps).
  { now rewrite list_lookup_fmap, Hlab. }
  eauto.
Qed.

Lemma index_of_unique idx (p : nat) lab :
  is_unique idx = true -> idx !! p = Some lab -> index_of idx lab = Some p.
Proof.
  revert p. induction idx as [|x idx IH]; intros p; simpl;
    [intros _ H; discriminate H|].
  intros Hu. apply andb_true_iff in Hu as [Hx Hu].
  destruct p as [|p]; simpl.
  - intros [= ->]. now rewrite Z.eqb_refl.
  - intros Hp. destruct (Z.eqb_spec x lab) as [->|_].
    + apply negb_true_iff in Hx.
      assert (existsb (Z.eqb lab) idx = true); [|congruence].
      apply existsb_exists. exists lab. split; [|apply Z.eqb_refl].
      apply list_elem_of_In. eapply list_elem_of_lookup_2. exact Hp.
    + now rewrite (IH _ Hu Hp).
Qed.

(** The cells of a variable after the pointwise selection. *)
Lemma isel_points_var_values pos new_dim n v ix :
  existsb (fun d => str_in d (dict_keys pos)) (dims v) = true ->
  let fv := isel_points_var pos new_dim n v in
  values fv ix
  = values v (map (fun d => match dict_get pos d with
                            | Some ps =>
                                default 0%nat (ps !! along (dims fv) ix new_dim)
                            | None => along (dims fv) ix d
                            end) (dims v)).
Proof.
  intros Ht. unfold isel_points_var.
  assert (Hcond : forallb (fun d => negb (dict_mem pos d)) (dims v) = false).
  { apply not_true_is_false. intros Hall. rewrite forallb_forall in Hall.
    apply existsb_exists in Ht as (d & Hd & Hk).
    apply Hall in Hd. rewrite dict_mem_keys, Hk in Hd. discriminate. }
  rewrite Hcond. reflexivity.
Qed.

Lemma pointwise_dims_keep keys new_dim seen ds d :
  In d ds -> str_in d keys = false ->
  In d (pointwise_dims keys new_dim seen ds).
Proof.
  intros Hin Hk. revert seen. induction ds as [|d' ds IH]; intros seen;
    simpl; [destruct Hin|].
  destruct Hin as [->|Hin].
  - rewrite Hk. now left.
  - destruct (str_in d' keys); [destruct seen|]; simpl; auto.
Qed.

(** The pointwise selection keeps the dimensions that are not indexed. *)
Lemma isel_points_var_dims_keep pos new_dim n v d :
  In d (dims v) -> str_in d (dict_keys pos) = false ->
  In d (dims (isel_points_var pos new_dim n v)).
Proof.
  intros Hin Hk. unfold isel_points_var.
  destruct (forallb _ (dims v)); [exact Hin|]. simpl.
  now apply pointwise_dims_keep.
Qed.

Lemma xindex_dims ds name idx :
  xindex ds name = Some idx ->
  exists v, dict_get (coords ds) name = Some v /\ dims v = [name].
Proof.
  unfold xindex. destruct (dict_get (coords ds) name) as [v|]; [|discriminate].
  destruct (dims v) as [|d [|]] eqn:E; try discriminate.
  destruct (String.eqb_spec d name) as [->|]; [|discriminate].
  intros _. exists v. split; [reflexivity | exact E].
Qed.

(** What the selection yields from an hourly climatology whose labels cover
    the slice: for every data variable, in order, its key and the fragment
    made of the variable indexed pointwise and of the coordinates that fit
    it. *)
Lemma selected_hourly_form sl clim index days hours :
  valid_dataset clim = true ->
  time_is_free clim = true ->
  xindex clim "dayofyear" = Some days -> is_unique days = true ->
  xindex clim "hour" = Some hours -> is_unique hours = true ->
  (forall t, In t (getslice index sl) ->
     In (dayofyear t) days /\ In (hour t) hours) ->
  let chunk_times := getslice index sl in
  exists p1 p2,
    index_sel "dayofyear" days (map dayofyear chunk_times) = Ok p1
    /\ index_sel "hour" hours (map hour chunk_times) = Ok p2
    /\ let f := isel_points_var [("dayofyear", p1); ("hour", p2)] "time"
                                (List.length chunk_times) in
       let kept :=
         dict_del (dict_del (map_vars f (coords clim)
                             ++ [("time", var1d "time" chunk_times)])
                            "dayofyear") "hour" in
       selected sl clim index
       = Ok (map (fun nv : string * XVariable =>
                    ({| offsets := [("time", slice_start sl)];
                        vars := [fst nv] |},
                     {| coords :=
                          List.filter
                            (fun kv => subset_dims (dims (snd kv))
                                         (dims (f (snd nv)) ++ []))
                            kept;
                        data_vars := [(fst nv, f (snd nv))] |}))
                 (data_vars clim)).
Proof.
  intros Hvalid Hfree Hxd Hud Hxh Huh Hall chunk_times.
  destruct (index_sel_found "dayofyear" days (map dayofyear chunk_times) Hud)
    as [p1 Hp1].
  { intros lab Hin. apply in_map_iff in Hin as (t & <- & Ht). now apply Hall. }
  destruct (index_sel_found "hour" hours (map hour chunk_times) Huh)
    as [p2 Hp2].
  { intros lab Hin. apply in_map_iff in Hin as (t & <- & Ht). now apply Hall. }
  exists p1, p2. split; [exact Hp1|]. split; [exact Hp2|].
  intros f kept. unfold selected. fold chunk_times.
  rewrite (xindex_coord _ _ _ Hxh). rewrite sel_two. simpl da_values.
  rewrite (group_indexer_index _ _ _ Hxd), (group_indexer_index _ _ _ Hxh).
  cbn [rbind run_query]. rewrite Hp1. cbn [rbind]. rewrite Hp2.
  cbn [rbind check_positions].
  remember (sel_result clim [("dayofyear", p1); ("hour", p2)]
              (dt_dayofyear {| da_values := chunk_times; da_dim := "time";
                               da_coord := chunk_times |}))
    as chunk eqn:Hchunk.
  assert (Hcoords : coords chunk
                    = map_vars f (coords clim)
                      ++ [("time", var1d "time" chunk_times)]).
  { rewrite Hchunk. unfold sel_result. simpl.
    rewrite (time_is_free_no_variable _ Hfree). unfold f.
    now rewrite length_map. }
  assert (Hdv : data_vars chunk = map_vars f (data_vars clim)).
  { rewrite Hchunk. unfold sel_result, f. simpl. now rewrite length_map. }
  assert (Hday : dict_mem (coords chunk) "dayofyear" = true).
  { rewrite Hchunk, sel_result_coords by discriminate.
    exact (xindex_coord _ _ _ Hxd). }
  assert (Hhour : dict_mem (dict_del (coords chunk) "dayofyear") "hour" = true).
  { unfold dict_mem. rewrite dict_get_del_ne by discriminate.
    fold (dict_mem (coords chunk) "hour").
    rewrite Hchunk, sel_result_coords by discriminate.
    exact (xindex_coord _ _ _ Hxh). }
  clear Hchunk.
  unfold del_coord at 1. rewrite Hday. cbn [rbind].
  unfold del_coord at 1. cbn [coords]. rewrite Hhour.
  cbn [rbind coords data_vars].
  rewrite Hdv, Hcoords. fold kept.
  assert (Hvalid' : unique_names (dict_keys (coords clim)
                                  ++ dict_keys (data_vars clim)) = true).
  { unfold valid_dataset, variables, dict_keys in *.
    now rewrite map_app in Hvalid. }
  destruct (unique_names_app _ _ Hvalid') as [Hudv Hdisj].
  assert (Hkept : forall name v, In (name, v) (data_vars clim) ->
                    dict_get kept name = None).
  { intros name v Hin. unfold kept.
    destruct (String.eqb_spec "hour" name) as [<-|Hn1];
      [apply dict_get_del_eq|].
    rewrite dict_get_del_ne by exact Hn1.
    destruct (String.eqb_spec "dayofyear" name) as [<-|Hn2];
      [apply dict_get_del_eq|].
    rewrite dict_get_del_ne by exact Hn2.
    rewrite dict_get_app, dict_get_map_vars.
    assert (Hnc : dict_get (coords clim) name = None).
    { apply dict_get_None_keys. apply Hdisj. unfold dict_keys.
      now apply (in_map fst) in Hin. }
    rewrite Hnc. cbv [fmap option_fmap option_map dict_get].
    assert (Hnt : name <> "time").
    { eapply time_is_free_spec; [exact Hfree|].
      unfold variables. apply in_or_app. right. exact Hin. }
    destruct (String.eqb_spec "time" name); [congruence | reflexivity]. }
  rewrite dict_keys_map_vars. unfold dict_keys.
  apply rmap_entries.
  intros [name v] Hin. simpl fst. simpl snd. unfold getitem_list. simpl rmap.
  unfold variables. cbn [coords data_vars].
  rewrite dict_get_app, (Hkept _ _ Hin), dict_get_map_vars.
  rewrite (dict_get_unique _ _ _ Hudv Hin). simpl.
  unfold dict_mem. rewrite (Hkept _ _ Hin). reflexivity.
Qed.

(** X1: the cells of a fragment are the cells of the climatology.  Under the
    conditions of a successful hourly selection, for a variable with a
    periodic dimension, the cell of its fragment at a position whose [time]
    component is the timestamp [t] of the slice is the cell of the
    climatology variable at the same position along the other dimensions,
    at the position of the label [dayofyear t] along [dayofyear] and at the
    position of the label [hour t] along [hour]. *)
Theorem fragment_cells sl (r : ref) index (st : list Dataset) clim days hours :
  st !! r = Some clim ->
  valid_dataset clim = true ->
  time_is_free clim = true ->
  xindex clim "dayofyear" = Some days -> is_unique days = true ->
  xindex clim "hour" = Some hours -> is_unique hours = true ->
  (forall t, In t (getslice index sl) ->
     In (dayofyear t) days /\ In (hour t) hours) ->
  let chunk_times := getslice index sl in
  exists pairs,
    fst (select_climatology sl r index st) = Ok pairs
    /\ forall (j : nat) name v,
         data_vars clim !! j = Some (name, v) ->
         touches ["dayofyear"; "hour"] v = true ->
         exists key fragment fv,
           pairs !! j = Some (key, fragment)
           /\ data_vars fragment = [(name, fv)]
           /\ forall ix t (pd ph : nat),
                chunk_times !! along (dims fv) ix "time" = Some t ->
                days !! pd = Some (dayofyear t) ->
                hours !! ph = Some (hour t) ->
                values fv ix
                = values v (map (fun d =>
                                   if String.eqb "dayofyear" d then pd
                                   else if String.eqb "hour" d then ph
                                   else along (dims fv) ix d) (dims v)).
Proof.
  intros Hr Hvalid Hfree Hxd Hud Hxh Huh Hall chunk_times.
  destruct (select_climatology_run sl r index st clim Hr) as (made & ->).
  destruct (selected_hourly_form sl clim index days hours
              Hvalid Hfree Hxd Hud Hxh Huh Hall)
    as (p1 & p2 & Hp1 & Hp2 & Hform).
  fold chunk_times in Hp1, Hp2, Hform. cbv zeta in Hform.
  simpl fst. rewrite Hform. eexists. split; [reflexivity|].
  intros j name v Hj Htouch.
  set (f := isel_points_var [("dayofyear", p1); ("hour", p2)] "time"
                            (List.length chunk_times)).
  eexists _, _, (f v).
  split; [rewrite list_lookup_fmap, Hj; reflexivity|].
  split; [reflexivity|].
  intros ix t pd ph Ht Hpd Hph.
  unfold f. rewrite isel_points_var_values by exact Htouch. fold f.
  apply (f_equal (values v)). apply map_ext. intros d.
  cbn [dict_get].
  destruct (String.eqb "dayofyear" d).
  - destruct (index_sel_positions _ _ _ _ (along (dims (f v)) ix "time")
                (dayofyear t) Hp1) as (p & Hp & Hidx).
    { now rewrite list_lookup_fmap, Ht. }
    rewrite (index_of_unique _ _ _ Hud Hpd) in Hidx. injection Hidx as <-.
    now rewrite Hp.
  - destruct (String.eqb "hour" d); [|reflexivity].
    destruct (index_sel_positions _ _ _ _ (along (dims (f v)) ix "time")
                (hour t) Hp2) as (p & Hp & Hidx).
    { now rewrite list_lookup_fmap, Ht. }
    rewrite (index_of_unique _ _ _ Huh Hph) in Hidx. injection Hidx as <-.
    now rewrite Hp.
Qed.

(** On the six-hourly sample, [t2m] at 2017-01-01T12 and latitude position 2
    is the climatology cell at hour position 2, day position 0, latitude
    position 2. *)
Lemma fragment_cells_witness :
  exists pairs key fragment fv,
    fst (select_climatology (mkSlice 0 4) 0%nat Samples.four_times
           [Samples.hourly 2]) = Ok pairs
    /\ pairs !! 0%nat = Some (key, fragment)
    /\ data_vars fragment = [("t2m", fv)]
    /\ values fv [2%nat; 2%nat] = Samples.cell [2%nat; 0%nat; 2%nat].
Proof.
  destruct (fragment_cells (mkSlice 0 4) 0%nat Samples.four_times
              [Samples.hourly 2] (Samples.hourly 2) [1; 2] [0; 6; 12; 18]
              eq_refl eq_refl eq_refl eq_refl eq_refl eq_refl eq_refl)
    as (pairs & Hrun & Hcells).
  - intros t Ht. vm_compute in Ht.
    destruct Ht as [<-|[<-|[<-|[<-|[]]]]]; vm_compute; tauto.
  - destruct (Hcells 0%nat "t2m" _ eq_refl eq_refl)
      as (key & fragment & fv & Hpair & Hdv & Hvalues).
    exists pairs, key, fragment, fv.
    split; [exact Hrun|]. split; [exact Hpair|]. split; [exact Hdv|].
    assert (Hfv : dims fv = ["time"; "latitude"]).
    { clear Hvalues Hcells. vm_compute in Hrun. injection Hrun as <-.
      vm_compute in Hpair. injection Hpair as _ <-.
      vm_compute in Hdv. now injection Hdv as <-. }
    rewrite (Hvalues [2%nat; 2%nat] (ymdh 2017 1 12) 0%nat 2%nat);
      rewrite ?Hfv; reflexivity.
Defined.

(** X2: the coordinates of a fragment.  Under the same conditions, a
    coordinate of the climatology without periodic dimension, all of whose
    dimensions are dimensions of the variable, is a coordinate of the
    fragment of that variable, unchanged. *)
Theorem fragment_coordinates sl (r : ref) index (st : list Dataset) clim
    days hours :
  st !! r = Some clim ->
  valid_dataset clim = true ->
  time_is_free clim = true ->
  xindex clim "dayofyear" = Some days -> is_unique days = true ->
  xindex clim "hour" = Some hours -> is_unique hours = true ->
  (forall t, In t (getslice index sl) ->
     In (dayofyear t) days /\ In (hour t) hours) ->
  exists pairs,
    fst (select_climatology sl r index st) = Ok pairs
    /\ forall (j : nat) name v cname cv,
         data_vars clim !! j = Some (name, v) ->
         dict_get (coords clim) cname = Some cv ->
         touches ["dayofyear"; "hour"] cv = false ->
         (forall d, In d (dims cv) -> In d (dims v)) ->
         exists key fragment,
           pairs !! j = Some (key, fragment)
           /\ dict_get (coords fragment) cname = Some cv.
Proof.
  intros Hr Hvalid Hfree Hxd Hud Hxh Huh Hall.
  destruct (select_climatology_run sl r index st clim Hr) as (made & ->).
  destruct (selected_hourly_form sl clim index days hours
              Hvalid Hfree Hxd Hud Hxh Huh Hall)
    as (p1 & p2 & Hp1 & Hp2 & Hform).
  cbv zeta in Hform. simpl fst. rewrite Hform.
  eexists. split; [reflexivity|].
  intros j name v cname cv Hj Hc Hcv Hsub.
  set (f := isel_points_var [("dayofyear", p1); ("hour", p2)] "time"
                            (List.length (getslice index sl))).
  eexists _, _. split; [rewrite list_lookup_fmap, Hj; reflexivity|].
  cbn [coords snd fst].
  assert (Hfcv : f cv = cv) by (apply isel_points_var_untouched; exact Hcv).
  assert (Hnp : forall d, In d (dims cv) ->
                  str_in d ["dayofyear"; "hour"] = false).
  { intros d Hd. destruct (str_in d ["dayofyear"; "hour"]) eqn:E; [|reflexivity].
    assert (touches ["dayofyear"; "hour"] cv = true); [|congruence].
    apply existsb_exists. eauto. }
  assert (Hne : forall k idx, xindex clim k = Some idx ->
                  In k ["dayofyear"; "hour"] -> k <> cname).
  { intros k idx Hx Hk ->. apply xindex_dims in Hx as (v' & Hv' & Hdims).
    rewrite Hc in Hv'. injection Hv' as <-.
    assert (Hin : In cname (dims cv)) by (rewrite Hdims; now left).
    apply Hnp in Hin. apply str_in_In in Hk. congruence. }
  apply dict_get_filter_Some.
  - rewrite dict_get_del_ne by (apply (Hne _ _ Hxh); simpl; tauto).
    rewrite dict_get_del_ne by (apply (Hne _ _ Hxd); simpl; tauto).
    rewrite dict_get_app, dict_get_map_vars, Hc. simpl. fold f.
    now rewrite Hfcv.
  - cbn [snd]. unfold subset_dims. apply forallb_forall. intros d Hd.
    apply str_in_In. apply in_or_app. left.
    apply isel_points_var_dims_keep; [now apply Hsub | now apply Hnp].
Qed.

(** The fragments of the six-hourly sample keep the [latitude] coordinate. *)
Lemma fragment_coordinates_witness :
  exists pairs key fragment,
    fst (select_climatology (mkSlice 0 4) 0%nat Samples.four_times
           [Samples.hourly 2]) = Ok pairs
    /\ pairs !! 1%nat = Some (key, fragment)
    /\ dict_get (coords fragment) "latitude"
       = Some (var1d "latitude" [-90; 0; 90]).
Proof.
  destruct (fragment_coordinates (mkSlice 0 4) 0%nat Samples.four_times
              [Samples.hourly 2] (Samples.hourly 2) [1; 2] [0; 6; 12; 18]
              eq_refl eq_refl eq_refl eq_refl eq_refl eq_refl eq_refl)
    as (pairs & Hrun & Hcoords).
  - intros t Ht. vm_compute in Ht.
    destruct Ht as [<-|[<-|[<-|[<-|[]]]]]; vm_compute; tauto.
  - destruct (Hcoords 1%nat "z500" _ "latitude" (var1d "latitude" [-90; 0; 90])
                eq_refl eq_refl eq_refl) as (key & fragment & Hpair & Hlat).
    + simpl. tauto.
    + exists pairs, key, fragment. auto.
Defined.

(** ** The template *)

Lemma rmap_In_inv {A B} (g : A -> result B) (l : list A) (l' : list B) y :
  rmap g l = Ok l' -> In y l' -> exists x, In x l /\ g x = Ok y.
Proof.
  revert l'. induction l as [|a l IH]; intros l'; simpl.
  - intros [= <-] [].
  - intros H Hin. apply rbind_Ok in H as (b & Hb & H).
    apply rbind_Ok in H as (bs & Hbs & H). injection H as <-.
    destruct Hin as [<-|Hin]; [eauto|].
    destruct (IH _ Hbs Hin) as (x & Hx & Hg). eauto.
Qed.

Lemma filter_all {A} (p : A -> bool) (l : list A) :
  forallb p l = true -> List.filter p l = l.
Proof.
  induction l as [|a l IH]; simpl; [reflexivity|].
  intros H. apply andb_true_iff in H as [Ha Hl]. rewrite Ha. f_equal.
  now apply IH.
Qed.

(** Reading position 0 along the dimensions [ds] removes exactly them, and
    zeros stay zeros. *)
Lemma isel0_var_dims ds v v' :
  isel0_var ds v = Ok v' ->
  dims v' = List.filter (fun d => negb (str_in d ds)) (dims v)
  /\ ((forall ix, values v ix = 0) -> forall ix, values v' ix = 0).
Proof.
  unfold isel0_var.
  destruct (forallb _ (dims v)) eqn:E.
  - intros [= <-]. split; [symmetry; now apply filter_all | auto].
  - destruct (existsb _ (dims v)); [discriminate|]. intros [= <-].
    split; [reflexivity|]. simpl. auto.
Qed.

Lemma In_dict_del {V} (d : list (string * V)) k v k0 :
  In (k, v) d -> k <> k0 -> In (k, v) (dict_del d k0).
Proof.
  intros Hin Hne. induction d as [|[k' v'] d IH]; simpl; [destruct Hin|].
  destruct Hin as [[= -> ->]|Hin].
  - apply String.eqb_neq in Hne. rewrite Hne. now left.
  - destruct (String.eqb k' k0); [now apply IH | right; now apply IH].
Qed.

Lemma unique_names_app_l (l1 l2 : list string) :
  unique_names (l1 ++ l2) = true -> unique_names l1 = true.
Proof.
  induction l1 as [|x l1 IH]; simpl; [reflexivity|].
  intros H. apply andb_true_iff in H as [Hx H].
  rewrite (IH H), andb_true_r.
  apply negb_true_iff in Hx. apply negb_true_iff.
  destruct (str_in x l1) eqn:E; [|reflexivity].
  apply str_in_In in E.
  assert (str_in x (l1 ++ l2) = true)
    by (apply str_in_In, in_or_app; now left).
  congruence.
Qed.

(** X7: the template of a completed setup.  Its [time] coordinate is the
    time index.  Every data variable of the climatology (not itself called
    [time]) is in the template as an array of zeros whose dimensions are
    [time], with the length of the time index, followed by the dimensions of
    the variable that are not periodic.  In a climatology with distinct
    names, an indexed periodic coordinate is not a coordinate of the
    template. *)
Theorem template_layout flags clim chunks s :
  main_setup flags clim chunks = Ok s ->
  xindex (template s) "time" = Some (times s)
  /\ (forall name v, In (name, v) (data_vars clim) -> name <> "time" ->
        exists tv,
          In (name, tv) (data_vars (template s))
          /\ dims tv
             = "time" :: List.filter (fun d => negb (str_in d (time_dims s)))
                                     (dims v)
          /\ var_size tv "time" = Some (List.length (times s))
          /\ forall ix, values tv ix = 0)
  /\ (valid_dataset clim = true ->
      forall d idx, In d (time_dims s) -> xindex clim d = Some idx ->
        dict_mem (coords (template s)) d = false).
Proof.
  intros Hs.
  apply main_setup_Ok in Hs as (hd & t0 & H1 & _ & H3 & H4 & _).
  apply time_dims_cases in H1.
  unfold expand_dims_time in H4.
  destruct (dim_size t0 "time"); [discriminate|].
  assert (Htmpl : template s
                  = {| coords := ("time", var1d "time" (times s))
                                 :: dict_del (coords t0) "time";
                       data_vars :=
                         map_vars (fun v => {| dims := "time" :: dims v;
                                               shape := List.length (times s)
                                                        :: shape v;
                                               values := fun ix =>
                                                 values v (tail ix) |})
                                  (dict_del (data_vars t0) "time") |}).
  { destruct (dict_get (variables t0) "time") as [[[|] ? ?]|];
      try discriminate; now injection H4. }
  clear H4. rewrite Htmpl.
  unfold isel0_drop in H3.
  destruct (forallb _ (time_dims s)); [|discriminate].
  apply rbind_Ok in H3 as (cs & Hcs & H3).
  apply rbind_Ok in H3 as (vs & Hvs & H3). injection H3 as <-.
  split; [|split].
  - unfold xindex. simpl. now rewrite labels_var1d.
  - intros name v Hin Hname.
    assert (Hin0 : In (name, {| dims := dims v; shape := shape v;
                                values := fun _ => 0 |})
                      (data_vars (make_template clim))).
    { simpl. unfold map_vars. apply in_map_iff. exists (name, v).
      split; [reflexivity | exact Hin]. }
    destruct (rmap_In _ _ _ _ Hvs Hin0) as ([k v1] & Hy & Hin1).
    simpl in Hy. apply rbind_Ok in Hy as (v1' & Hv1 & Hy).
    injection Hy as <- <-.
    apply isel0_var_dims in Hv1 as [Hdims Hzero]. simpl in Hdims.
    eexists. split; [|split; [|split]].
    + cbn [data_vars]. unfold map_vars. apply in_map_iff.
      exists (name, v1'). split; [reflexivity|].
      now apply In_dict_del.
    + simpl. now rewrite Hdims.
    + reflexivity.
    + intros ix. simpl. apply Hzero. reflexivity.
  - intros Hvalid d idx Hd Hx.
    assert (Hdt : d <> "time").
    { intros ->. rewrite H1 in Hd.
      destruct (dict_mem (coords clim) "hour"); simpl in Hd;
        repeat (destruct Hd as [Hd|Hd]; [discriminate Hd|]); destruct Hd. }
    apply xindex_dims in Hx as (cv & Hcv & Hcvd).
    unfold dict_mem. cbn [coords dict_get].
    apply String.eqb_neq in Hdt. rewrite String.eqb_sym, Hdt.
    apply String.eqb_neq in Hdt.
    rewrite dict_get_del_ne by congruence.
    cbn [coords].
    destruct (dict_get (List.filter _ cs) d) as [v'|] eqn:E; [|reflexivity].
    exfalso. apply dict_get_In in E. apply filter_In in E as [Hin Hkeep].
    destruct (rmap_In_inv _ _ _ _ Hcs Hin) as ([k0 v0] & Hin0 & Hy).
    simpl in Hy. apply rbind_Ok in Hy as (v1 & Hv1 & Hy).
    injection Hy as -> ->.
    assert (Hu : unique_names (dict_keys (coords clim)) = true).
    { unfold valid_dataset, variables, dict_keys in Hvalid.
      rewrite map_app in Hvalid. now apply unique_names_app_l in Hvalid. }
    simpl in Hin0. rewrite (dict_get_unique _ _ _ Hu Hin0) in Hcv.
    injection Hcv as ->.
    apply isel0_var_dims in Hv1 as [Hdims _]. rewrite Hcvd in Hdims.
    simpl in Hdims. apply str_in_In in Hd. rewrite Hd in Hdims.
    simpl in Hdims, Hkeep.
    rewrite (dict_get_unique _ _ _ Hu Hin0), Hdims in Hkeep.
    unfold touches in Hkeep. rewrite Hcvd in Hkeep. simpl in Hkeep.
    rewrite Hd in Hkeep. discriminate.
Qed.

(** The template of the sample setup: [t2m] over [time] and [latitude]. *)
Lemma template_layout_witness :
  exists s tv,
    main_setup {| TIME_START := ymdh 2017 1 0; TIME_STOP := ymdh 2017 1 18;
                  TIME_CHUNK_SIZE := Some 2 |}
               (Samples.hourly 2) Samples.hourly_chunks = Ok s
    /\ In ("t2m", tv) (data_vars (template s))
    /\ dims tv = ["time"; "latitude"]
    /\ var_size tv "time" = Some 4%nat.
Proof.
  eassert (Hs : main_setup {| TIME_START := ymdh 2017 1 0;
                              TIME_STOP := ymdh 2017 1 18;
                              TIME_CHUNK_SIZE := Some 2 |}
                           (Samples.hourly 2) Samples.hourly_chunks = Ok _)
    by (vm_compute; reflexivity).
  destruct (template_layout _ _ _ _ Hs) as (_ & Hvars & _).
  destruct (Hvars "t2m" _ (or_introl eq_refl)) as (tv & Hin & Hdims & Hsize & _);
    [discriminate|].
  eexists _, tv. split; [exact Hs|]. split; [exact Hin|].
  split; [exact Hdims | exact Hsize].
Defined.

(** ** Complete runs *)

Lemma getslice_In {A} (l : list A) sl x : In x (getslice l sl) -> In x l.
Proof.
  unfold getslice. destruct (slice_indices sl (List.length l)) as [lo hi].
  intros H. apply list_elem_of_In in H. apply list_elem_of_In.
  apply (subseteq_drop lo l). now apply (subseteq_take (hi - lo)).
Qed.

Lemma rmap_all_Ok {A B} (g : A -> result B) (l : list A) :
  (forall x, In x l -> exists y, g x = Ok y) -> exists l', rmap g l = Ok l'.
Proof.
  induction l as [|a l IH]; intros H; simpl; [eauto|].
  destruct (H a) as [b ->]; [now left|].
  destruct IH as [bs ->]; [intros x Hx; apply H; now right|].
  simpl. eauto.
Qed.

(** X6: what is left to fail.  For a climatology with distinct names, free
    of the name [time], with indexed [dayofyear] and [hour] coordinates
    without repeated labels, whenever the setup completes and every
    timestamp of the time index has its day and its hour among the labels,
    the selection of every work item succeeds, with one pair per data
    variable.  So [main] can only fail in what it calls: when the runner is
    found and the destination accepts the template and these pairs, [main]
    returns, having written one pair per work item and data variable. *)
Theorem hourly_expansion_completes p flags clim chunks s days hours
    (st : list Dataset) :
  main_setup flags clim chunks = Ok s ->
  valid_dataset clim = true ->
  time_is_free clim = true ->
  xindex clim "dayofyear" = Some days -> is_unique days = true ->
  xindex clim "hour" = Some hours -> is_unique hours = true ->
  (forall t, In t (times s) -> In (dayofyear t) days /\ In (hour t) hours) ->
  let select := fun start =>
    selected (slice_of (time_chunk_size s) start) clim (times s) in
  (forall start, In start (work_items s) ->
     exists out, select start = Ok out
                 /\ List.length out = List.length (data_vars clim))
  /\ (runner_setup p = Ok tt ->
      zarr_setup p (template s) (output_chunks s) = Ok tt ->
      (forall start out kd,
         In start (work_items s) -> select start = Ok out -> In kd out ->
         zarr_write p (template s) (output_chunks s) (fst kd) (snd kd)
         = Ok tt) ->
      exists pairs,
        fst (main p flags (clim, chunks) st) = Ok (s, pairs)
        /\ List.length pairs
           = (List.length (work_items s) * List.length (data_vars clim))%nat).
Proof.
  intros Hs Hvalid Hfree Hxd Hud Hxh Huh Hall select.
  assert (Hsel : forall start,
             exists out, select start = Ok out
                         /\ List.length out = List.length (data_vars clim)).
  { intros start. unfold select.
    destruct (selected_hourly_form (slice_of (time_chunk_size s) start)
                clim (times s) days hours Hvalid Hfree Hxd Hud Hxh Huh)
      as (p1 & p2 & _ & _ & Hform).
    - intros t Ht. apply Hall. now apply getslice_In in Ht.
    - cbv zeta in Hform. eexists. split; [exact Hform|].
      pose proof (selected_keys _ _ _ _ Hform) as Hk.
      rewrite <- (length_map fst), Hk, length_map.
      unfold dict_keys. now rewrite length_map. }
  split; [intros start _; apply Hsel|].
  intros Hr Hz Hw.
  destruct (main_run p flags clim chunks st) as (made & Hrun).
  rewrite Hrun, Hs. simpl fst. cbn [rbind]. rewrite Hr. cbn [rbind].
  rewrite Hz. cbn [rbind].
  destruct (rmap_all_Ok (processed p s clim) (schedule p (work_items s)))
    as [outs Houts].
  { intros start Hin.
    apply (Permutation_in _ (schedule_permutes p _)) in Hin.
    destruct (Hsel start) as (out & Hout & _).
    exists out. unfold processed. fold (select start). rewrite Hout.
    cbn [rbind].
    destruct (rmap_all_Ok
                (fun kd : Key * Dataset =>
                   zarr_write p (template s) (output_chunks s) (fst kd) (snd kd))
                out) as [us ->]; [|reflexivity].
    intros kd Hkd. exists tt. exact (Hw start out kd Hin Hout Hkd). }
  rewrite Houts. simpl. eexists. split; [reflexivity|].
  rewrite <- (Permutation_length (schedule_permutes p (work_items s))).
  apply rmap_Forall2 in Houts. clear Hrun Hs.
  induction Houts as [|start out items outs Hout _ IH]; [reflexivity|].
  simpl. rewrite length_app, IH. f_equal.
  apply processed_selected in Hout. fold (select start) in Hout.
  destruct (Hsel start) as (out' & Hout' & Hlen). congruence.
Qed.

(** The sample run under the accepting destination: every work item is
    selected into two pairs, and the run completes with four pairs. *)
Lemma hourly_expansion_completes_witness :
  exists s pairs,
    fst (main Samples.accepting
              {| TIME_START := ymdh 2017 1 0; TIME_STOP := ymdh 2017 1 18;
                 TIME_CHUNK_SIZE := Some 2 |}
              (Samples.hourly 2, Samples.hourly_chunks) []) = Ok (s, pairs)
    /\ List.length pairs = 4%nat.
Proof.
  eassert (Hs : main_setup {| TIME_START := ymdh 2017 1 0;
                              TIME_STOP := ymdh 2017 1 18;
                              TIME_CHUNK_SIZE := Some 2 |}
                           (Samples.hourly 2) Samples.hourly_chunks = Ok _)
    by (vm_compute; reflexivity).
  destruct (hourly_expansion_completes Samples.accepting _ _ _ _
              [1; 2] [0; 6; 12; 18] []
              Hs eq_refl eq_refl eq_refl eq_refl eq_refl eq_refl)
    as (_ & Hrun).
  - intros t Ht. vm_compute in Ht.
    destruct Ht as [<-|[<-|[<-|[<-|[]]]]]; vm_compute; tauto.
  - destruct Hrun as (pairs & Hmain & Hlen);
      [reflexivity | reflexivity | reflexivity |].
    eexists _, pairs. split; [exact Hmain | exact Hlen].
Defined.

(** The day of the year is between 1 and 366, the hour between 0 and 23. *)
Lemma dayofyear_range t : 1 <= dayofyear t <= 366.
Proof.
  unfold dayofyear, ordinal_dayofyear. cbv zeta.
  destruct (_ || _); [lia|].
  match goal with |- 1 <= ?n `mod` 365 + 1 <= 366 =>
    pose proof (Z.mod_pos_bound n 365) end.
  lia.
Qed.

Lemma hour_range t : 0 <= hour t < 24.
Proof. unfold hour. apply Z.mod_pos_bound. lia. Qed.

(** X11: the labels that a run looks up.  Every timestamp of the time index
    has its day of the year between 1 and 366 and its hour of day between 0
    and 23; when the period step divides 24 hours and the hour of
    [time_start] is a multiple of it, the hour of every timestamp is a
    multiple of the period step too. *)
Theorem time_index_labels flags clim chunks hd tds s :
  hour_delta_time_dims clim = Ok (hd, tds) ->
  0 < hd ->
  main_setup flags clim chunks = Ok s ->
  forall t, In t (times s) ->
    1 <= dayofyear t <= 366
    /\ 0 <= hour t < 24
    /\ ((hd | 24) -> (hd | hour (TIME_START flags)) -> (hd | hour t)).
Proof.
  intros Hstep Hhd Hs t Ht.
  split; [apply dayofyear_range|]. split; [apply hour_range|].
  intros H24 Hstart.
  apply main_setup_Ok in Hs as (hd' & t0 & H1 & H2 & _).
  rewrite Hstep in H1. injection H1 as <- _.
  rewrite date_range_pos in H2 by (unfold NS_PER_HOUR; lia).
  injection H2 as H2. rewrite <- H2 in Ht.
  apply in_map_iff in Ht as (i & <- & _).
  rewrite hour_shift.
  destruct H24 as [k Hk]. destruct Hstart as [m Hm].
  exists ((m + Z.of_nat i) `mod` k).
  rewrite Hm.
  replace (m * hd + Z.of_nat i * hd) with ((m + Z.of_nat i) * hd) by lia.
  rewrite Hk. apply Zmult_mod_distr_r.
Qed.

(** In the six-hourly sample setup that starts at midnight every timestamp is
    at a multiple of six hours. *)
Lemma time_index_labels_witness :
  exists s,
    main_setup {| TIME_START := ymdh 2017 1 0; TIME_STOP := ymdh 2017 1 18;
                  TIME_CHUNK_SIZE := Some 2 |}
               (Samples.hourly 2) Samples.hourly_chunks = Ok s
    /\ forall t, In t (times s) -> (6 | hour t).
Proof.
  eassert (Hs : main_setup {| TIME_START := ymdh 2017 1 0;
                              TIME_STOP := ymdh 2017 1 18;
                              TIME_CHUNK_SIZE := Some 2 |}
                           (Samples.hourly 2) Samples.hourly_chunks = Ok _)
    by (vm_compute; reflexivity).
  eexists. split; [exact Hs|]. intros t Ht.
  refine (proj2 (proj2 (time_index_labels _ (Samples.hourly 2) _ 6
                          ["hour"; "dayofyear"] _ eq_refl eq_refl Hs t Ht))
                _ _).
  - now exists 4.
  - now exists 0.
Defined.
